(** * k3sup plan: the installation-script planner of [cmd/plan.go]

    A shallow embedding of the [RunE] closure of [MakePlan] and of the
    loop that renders one command block per host, followed by the
    properties of role assignment, truncation by [--limit], token
    propagation and optional clauses. *)

From Stdlib Require Import ZArith List Bool Lia.
From Stdlib Require Import Ascii String DecimalString DecimalPos.
Import ListNotations.

Local Open Scope string_scope.
Local Open Scope Z_scope.

(** ** Text *)

(** Go strings are byte sequences; [string] is a list of 8-bit [ascii]. *)

Definition nl : string := String "010"%char EmptyString.
Definition dq : string := String "034"%char EmptyString.
Definition backslash : string := String "092"%char EmptyString.

(** The line continuation of the raw-string templates: a space, a
    backslash and a newline. *)
Definition cont : string := " " ++ backslash ++ nl.

(** [%d] of [fmt.Sprintf] at a Go [int]. *)
Definition fmt_d (z : Z) : string := NilZero.string_of_int (Z.to_int z).

(** ** Data *)

(** [type Host struct { Hostname string; IP string }] *)
Record Host : Set := mkHost { Hostname : string; IP : string }.

(** The zero value of [var primaryServer Host]. *)
Definition zeroHost : Host := mkHost "" "".

(** The values [RunE] reads from the command's flags.  The Go [int]s are
    kept in [Z]: the loop only compares [servers] and [nodeLimit], and the
    sums [i+1], [serversAdded+1] and [(i+1)-serversAdded] are bounded by
    [len(hosts)], so no operation of the loop can wrap around. *)
Record Flags : Set := mkFlags {
  nodeLimit : Z;
  background : bool;
  serverK3sExtraArgs : string;
  agentK3sExtraArgs : string;
  servers : Z;
  kubeconfig : string;
  contextName : string;
  user : string;
  tlsSan : string
}.

(** The three branches of the loop body. *)
Inductive Role : Set := PrimaryControlPlane | AdditionalControlPlane | Worker.

Definition Role_eqb (a b : Role) : bool :=
  match a, b with
  | PrimaryControlPlane, PrimaryControlPlane => true
  | AdditionalControlPlane, AdditionalControlPlane => true
  | Worker, Worker => true
  | _, _ => false
  end.

(** ** The strings computed before the loop *)

Definition nonempty (s : string) : bool := (0 <? Z.of_nat (String.length s)).

Definition tlsSanStr (f : Flags) : string :=
  if nonempty (tlsSan f) then cont ++ "--tls-san " ++ tlsSan f else "".

Definition bgStr (f : Flags) : string :=
  if background f then " &" else "".

Definition serverExtraArgsSt (f : Flags) : string :=
  if nonempty (serverK3sExtraArgs f)
  then cont ++ "--k3s-extra-args " ++ dq ++ serverK3sExtraArgs f ++ dq
  else "".

Definition agentExtraArgsSt (f : Flags) : string :=
  if nonempty (agentK3sExtraArgs f)
  then cont ++ "--k3s-extra-args " ++ dq ++ agentK3sExtraArgs f ++ dq
  else "".

Definition header : string := "#!/bin/sh" ++ nl ++ nl.

(** ** The templates of the three branches *)

Module Template.

Definition primaryMarker : string :=
  "echo " ++ dq ++ "Setting up primary server 1" ++ dq ++ nl.

Definition install (f : Flags) (host : Host) : string :=
  "k3sup install --host " ++ IP host ++ cont ++
  "--user " ++ user f ++ cont ++
  "--cluster" ++ cont ++
  "--local-path " ++ kubeconfig f ++ cont ++
  "--context " ++ contextName f ++ tlsSanStr f ++ serverExtraArgsSt f ++ nl.

Definition fetchToken (f : Flags) (host : Host) : string :=
  nl ++ "echo " ++ dq ++ "Fetching the server's node-token into memory" ++ dq ++ nl ++
  nl ++
  "export NODE_TOKEN=$(k3sup node-token --host " ++ IP host ++ " --user " ++ user f ++ ")" ++ nl.

Definition serverMarker (n : Z) : string :=
  nl ++ "echo " ++ dq ++ "Setting up additional server: " ++ fmt_d n ++ dq ++ nl.

Definition tokenRef : string := "--node-token " ++ dq ++ "$NODE_TOKEN" ++ dq.

Definition joinServer (f : Flags) (host primary : Host) : string :=
  "k3sup join" ++ cont ++
  "--host " ++ IP host ++ cont ++
  "--server-host " ++ IP primary ++ cont ++
  "--server" ++ cont ++
  tokenRef ++ cont ++
  "--user " ++ user f ++ tlsSanStr f ++ serverExtraArgsSt f ++ bgStr f ++ nl.

Definition workerMarker (n : Z) : string :=
  nl ++ "echo " ++ dq ++ "Setting up worker: " ++ fmt_d n ++ dq ++ nl.

Definition joinWorker (f : Flags) (host primary : Host) : string :=
  "k3sup join" ++ cont ++
  "--host " ++ IP host ++ cont ++
  "--server-host " ++ IP primary ++ cont ++
  tokenRef ++ cont ++
  "--user " ++ user f ++ agentExtraArgsSt f ++ bgStr f ++ nl.

End Template.

(** ** The loop of [RunE] *)

Record LoopState : Set := mkState {
  serversAdded : Z;
  primaryServer : Host;
  script : string
}.

Definition initState : LoopState := mkState 0 zeroHost header.

(** One iteration of [for i, host := range hosts], up to the test of
    [nodeLimit]. *)
Definition loop_body (f : Flags) (i : Z) (host : Host) (st : LoopState) : LoopState :=
  if serversAdded st =? 0 then
    let script := script st ++ Template.primaryMarker in
    let script := script ++ Template.install f host in
    let script := script ++ Template.fetchToken f host in
    mkState 1 host script
  else if serversAdded st <? servers f then
    let script := script st ++ Template.serverMarker (serversAdded st + 1) in
    let script := script ++ Template.joinServer f host (primaryServer st) in
    mkState (serversAdded st + 1) (primaryServer st) script
  else
    let script := script st ++ Template.workerMarker ((i + 1) - serversAdded st) in
    let script := script ++ Template.joinWorker f host (primaryServer st) in
    mkState (serversAdded st) (primaryServer st) script.

(** [if nodeLimit > 0 && i+1 >= nodeLimit { break }] *)
Definition limit_reached (f : Flags) (i : Z) : bool :=
  (0 <? nodeLimit f) && (nodeLimit f <=? i + 1).

Fixpoint range_loop (f : Flags) (i : Z) (hosts : list Host) (st : LoopState)
  : LoopState :=
  match hosts with
  | [] => st
  | host :: rest =>
      let st' := loop_body f i host st in
      if limit_reached f i then st' else range_loop f (i + 1) rest st'
  end.

(** The script built by [RunE] once the hosts are decoded. *)
Definition plan_script (f : Flags) (hosts : list Host) : string :=
  script (range_loop f 0 hosts initState).

(** ** [RunE] with its early exits *)

(** A Go [error], by its message. *)
Record error : Set := Errorf { Error : string }.

Definition exampleHosts : list Host :=
  [ mkHost "node-1" "192.168.128.102";
    mkHost "node-2" "192.168.128.103";
    mkHost "node-3" "192.168.128.104" ].

Section RunE.

(** [os.ReadFile], [json.Unmarshal] into [[]Host] and
    [json.MarshalIndent] are library calls; they are taken as given. *)
Variable ReadFile : string -> string + error.
Variable Unmarshal : string -> list Host + error.
Variable MarshalIndent : list Host -> string + error.

(** What was printed on standard output, and the returned error
    ([None] is [nil]). *)
Definition Outcome : Set := (string * option error)%type.

Definition outputExampleHostsJSON : Outcome :=
  match MarshalIndent exampleHosts with
  | inr err => ("", Some (Errorf ("could not encode JSON: " ++ Error err)))
  | inl data => (data ++ nl, None)
  end.

Definition RunE (initFlag : bool) (f : Flags) (args : list string) : Outcome :=
  if initFlag then outputExampleHostsJSON
  else
    match args with
    | [] => ("", Some (Errorf "give a path to a JSON file containing a list of devices"))
    | name :: _ =>
        match ReadFile name with
        | inr err => ("", Some err)
        | inl data =>
            match Unmarshal data with
            | inr err => ("", Some err)
            | inl hosts => (plan_script f hosts ++ nl, None)
            end
        end
    end.

End RunE.

(** ** Command blocks *)

(** The text one iteration appends to [script], with the branch taken and
    the address it was rendered for. *)
Record CommandBlock : Set := mkBlock {
  hostAddress : string;
  role : Role;
  renderedText : string
}.

Definition block_of (f : Flags) (i : Z) (host : Host) (added : Z) (primary : Host)
  : CommandBlock :=
  if added =? 0 then
    mkBlock (IP host) PrimaryControlPlane
      (Template.primaryMarker ++ Template.install f host ++ Template.fetchToken f host)
  else if added <? servers f then
    mkBlock (IP host) AdditionalControlPlane
      (Template.serverMarker (added + 1) ++ Template.joinServer f host primary)
  else
    mkBlock (IP host) Worker
      (Template.workerMarker ((i + 1) - added) ++ Template.joinWorker f host primary).

Fixpoint blocks_from (f : Flags) (i : Z) (hosts : list Host) (added : Z) (primary : Host)
  : list CommandBlock :=
  match hosts with
  | [] => []
  | host :: rest =>
      let st' := loop_body f i host (mkState added primary "") in
      block_of f i host added primary ::
      (if limit_reached f i then []
       else blocks_from f (i + 1) rest (serversAdded st') (primaryServer st'))
  end.

Definition plan_blocks (f : Flags) (hosts : list Host) : list CommandBlock :=
  blocks_from f 0 hosts 0 zeroHost.

Definition concat_text (bs : list CommandBlock) : string :=
  fold_right (fun b acc => renderedText b ++ acc) "" bs.

(** ** Vocabulary of the properties *)

(** [s] contains [p] verbatim. *)
Definition Contains (s p : string) : Prop :=
  exists pre post, s = pre ++ p ++ post.

(** Decision of [Contains], in the manner of [strings.Contains]. *)
Fixpoint containsb (s p : string) : bool :=
  prefix p s ||
  match s with
  | EmptyString => false
  | String _ s' => containsb s' p
  end.

(** The command line of a block, all of whose templates close with a
    newline, ends with [suf]. *)
Definition EndsLineWith (s suf : string) : Prop :=
  exists body, s = body ++ suf ++ nl.

Fixpoint has_char (c : ascii) (s : string) : bool :=
  match s with
  | EmptyString => false
  | String x s' => Ascii.eqb x c || has_char c s'
  end.

(** The command of the primary's block that stores the join token, and
    the reference to the primary that the join templates carry. *)
Definition captureToken (f : Flags) (primary : Host) : string :=
  "export NODE_TOKEN=$(k3sup node-token --host " ++ IP primary ++
  " --user " ++ user f ++ ")".

Definition serverHostRef (primary : Host) : string :=
  "--server-host " ++ IP primary.

(** The rendered optional clauses. *)
Definition tlsSanFlag : string := "--tls-san".
Definition tlsSanClause (f : Flags) : string := cont ++ "--tls-san " ++ tlsSan f.
Definition bgSuffix : string := " &".

(** The strings, other than [tlsSan], that the templates copy into the
    script: none of them contains [p]. *)
Definition fields_free_of (p : string) (f : Flags) (hosts : list Host) : Prop :=
  ~ Contains (user f) p /\
  ~ Contains (kubeconfig f) p /\
  ~ Contains (contextName f) p /\
  ~ Contains (serverK3sExtraArgs f) p /\
  ~ Contains (agentK3sExtraArgs f) p /\
  (forall h, In h hosts -> ~ Contains (IP h) p).

Definition is_control_plane (b : CommandBlock) : bool :=
  negb (Role_eqb (role b) Worker).

Definition is_worker (b : CommandBlock) : bool := Role_eqb (role b) Worker.

Definition count_control_plane (bs : list CommandBlock) : Z :=
  Z.of_nat (List.length (filter is_control_plane bs)).

Definition count_workers (bs : list CommandBlock) : Z :=
  Z.of_nat (List.length (filter is_worker bs)).

(** The number of hosts the loop visits before it ends or breaks. *)
Definition processed (f : Flags) (hosts : list Host) : Z :=
  let n := Z.of_nat (List.length hosts) in
  if (0 <? nodeLimit f) && (nodeLimit f <? n) then nodeLimit f else n.

Definition set_nodeLimit (f : Flags) (l : Z) : Flags :=
  mkFlags l (background f) (serverK3sExtraArgs f) (agentK3sExtraArgs f)
          (servers f) (kubeconfig f) (contextName f) (user f) (tlsSan f).

Definition set_servers (f : Flags) (c : Z) : Flags :=
  mkFlags (nodeLimit f) (background f) (serverK3sExtraArgs f) (agentK3sExtraArgs f)
          c (kubeconfig f) (contextName f) (user f) (tlsSan f).

(** Role assignment and counts as read off the length [n >= 1] of the
    input and a server count [c >= 1], whatever [nodeLimit] is. *)
Definition roles_by_input_length (f : Flags) (hosts : list Host) : Prop :=
  let bs := plan_blocks f hosts in
  let c := servers f in
  let n := Z.of_nat (List.length hosts) in
  1 <= n -> 1 <= c ->
  (forall b, nth_error bs 0 = Some b -> role b = PrimaryControlPlane) /\
  (forall k b, nth_error bs k = Some b ->
     (role b = AdditionalControlPlane <-> 0 < Z.of_nat k < c)) /\
  (forall k b, nth_error bs k = Some b ->
     k <> 0%nat -> ~ 0 < Z.of_nat k < c -> role b = Worker) /\
  count_control_plane bs = Z.min c n /\
  count_workers bs = Z.max 0 (n - c).

(** Every block, of whatever role, carries the TLS-SAN clause exactly
    when [tlsSan] is not empty. *)
Definition tls_clause_in_every_block (f : Flags) (hosts : list Host) : Prop :=
  forall b, In b (plan_blocks f hosts) ->
    (Contains (renderedText b) (tlsSanClause f) <-> tlsSan f <> "").

(** The background suffix closes exactly the join blocks of a run with
    [background], and never occurs in the primary's block. *)
Definition bg_suffix_rule (f : Flags) (hosts : list Host) : Prop :=
  forall b, In b (plan_blocks f hosts) ->
    (EndsLineWith (renderedText b) bgSuffix <->
       background f = true /\
       (role b = AdditionalControlPlane \/ role b = Worker)) /\
    (role b = PrimaryControlPlane -> ~ Contains (renderedText b) bgSuffix).

(** The counter after one iteration, and the role taken at position
    [j] of the input, as the loop computes them. *)
Definition next_added (f : Flags) (added : Z) : Z :=
  if added =? 0 then 1 else if added <? servers f then added + 1 else added.

Definition role_at (c j : Z) : Role :=
  if j =? 0 then PrimaryControlPlane
  else if j <? c then AdditionalControlPlane
  else Worker.

(** Before the iteration at position [i], the counter holds the number
    of control-plane hosts so far. *)
Definition counter_at (f : Flags) (i added : Z) : Prop :=
  (i = 0 /\ added = 0) \/ (0 < i /\ added = Z.min i (Z.max 1 (servers f))).

(** *** Texts cut at separators *)

(** A template is a sequence of literal pieces and of copied fields. *)
Inductive Piece : Set :=
| Lit (s : string)
| Fld (s : string).

Definition piece_text (x : Piece) : string :=
  match x with Lit s => s | Fld s => s end.

Definition render (ps : list Piece) : string :=
  fold_right (fun x acc => piece_text x ++ acc) "" ps.

Definition starts_with_sep (p s : string) : bool :=
  match s with
  | EmptyString => false
  | String c _ => negb (has_char c p)
  end.

Fixpoint ends_with_sep (p s : string) : bool :=
  match s with
  | EmptyString => false
  | String c EmptyString => negb (has_char c p)
  | String _ s' => ends_with_sep p s'
  end.

(** The literals are free of [p] and close with a character foreign to
    [p]; every field is followed by a literal that opens with one. *)
Fixpoint separated (p : string) (ps : list Piece) : bool :=
  match ps with
  | [] => true
  | Lit s :: rest => negb (containsb s p) && ends_with_sep p s && separated p rest
  | Fld _ :: rest =>
      match rest with
      | [] => true
      | Lit s :: _ => starts_with_sep p s
      | Fld _ :: _ => false
      end && separated p rest
  end.

Definition fields_free (p : string) (ps : list Piece) : Prop :=
  forall s, In (Fld s) ps -> ~ Contains s p.

(** The templates again, cut into their literals and the fields copied
    between them. *)
Definition tlsSan_pieces (f : Flags) : list Piece :=
  if nonempty (tlsSan f)
  then [Lit (cont ++ "--tls-san "); Fld (tlsSan f)] else [].

Definition serverExtra_pieces (f : Flags) : list Piece :=
  if nonempty (serverK3sExtraArgs f)
  then [Lit (cont ++ "--k3s-extra-args " ++ dq); Fld (serverK3sExtraArgs f); Lit dq]
  else [].

Definition agentExtra_pieces (f : Flags) : list Piece :=
  if nonempty (agentK3sExtraArgs f)
  then [Lit (cont ++ "--k3s-extra-args " ++ dq); Fld (agentK3sExtraArgs f); Lit dq]
  else [].

Definition bg_pieces (f : Flags) : list Piece :=
  if background f then [Lit " &"] else [].

Definition primary_pieces (f : Flags) (host : Host) : list Piece :=
  [ Lit (Template.primaryMarker ++ "k3sup install --host "); Fld (IP host);
    Lit (cont ++ "--user "); Fld (user f);
    Lit (cont ++ "--cluster" ++ cont ++ "--local-path "); Fld (kubeconfig f);
    Lit (cont ++ "--context "); Fld (contextName f) ]
  ++ tlsSan_pieces f ++ serverExtra_pieces f ++
  [ Lit (nl ++ nl ++ "echo " ++ dq ++
         "Fetching the server's node-token into memory" ++ dq ++ nl ++ nl ++
         "export NODE_TOKEN=$(k3sup node-token --host ");
    Fld (IP host); Lit " --user "; Fld (user f); Lit (")" ++ nl) ].

Definition joinServer_pieces (f : Flags) (n : Z) (host primary : Host)
  : list Piece :=
  [ Lit (nl ++ "echo " ++ dq ++ "Setting up additional server: "); Fld (fmt_d n);
    Lit (dq ++ nl ++ "k3sup join" ++ cont ++ "--host "); Fld (IP host);
    Lit (cont ++ "--server-host "); Fld (IP primary);
    Lit (cont ++ "--server" ++ cont ++ Template.tokenRef ++ cont ++ "--user ");
    Fld (user f) ]
  ++ tlsSan_pieces f ++ serverExtra_pieces f ++ bg_pieces f ++ [Lit nl].

Definition joinWorker_pieces (f : Flags) (n : Z) (host primary : Host)
  : list Piece :=
  [ Lit (nl ++ "echo " ++ dq ++ "Setting up worker: "); Fld (fmt_d n);
    Lit (dq ++ nl ++ "k3sup join" ++ cont ++ "--host "); Fld (IP host);
    Lit (cont ++ "--server-host "); Fld (IP primary);
    Lit (cont ++ Template.tokenRef ++ cont ++ "--user ");
    Fld (user f) ]
  ++ agentExtra_pieces f ++ bg_pieces f ++ [Lit nl].

Definition block_pieces (f : Flags) (i : Z) (host : Host) (added : Z)
    (primary : Host) : list Piece :=
  if added =? 0 then primary_pieces f host
  else if added <? servers f then joinServer_pieces f (added + 1) host primary
  else joinWorker_pieces f ((i + 1) - added) host primary.

(** ** The flags as registered *)

(** The defaults given to [command.Flags()]: [--servers 3],
    [--local-path kubeconfig], [--context default], [--user root], the
    empty string for [--tls-san] and for the two extra-args flags,
    [--background] off and [--limit 0].  ([--ssh-key] is registered but
    never read.) *)
Definition defaultFlags : Flags :=
  mkFlags 0 false "" "" 3 "kubeconfig" "default" "root" "".

(** ** Further vocabulary *)

Definition is_primary (b : CommandBlock) : bool :=
  Role_eqb (role b) PrimaryControlPlane.

Definition count_primary (bs : list CommandBlock) : Z :=
  Z.of_nat (List.length (filter is_primary bs)).

(** The arguments every template passes for its own host. *)
Definition hostRef (host : Host) : string := "--host " ++ IP host.
Definition userRef (f : Flags) : string := "--user " ++ user f.

(** The clause that carries extra arguments [args] to k3s. *)
Definition extraArgsClause (args : string) : string :=
  cont ++ "--k3s-extra-args " ++ dq ++ args ++ dq.

(** [s] opens with [p]. *)
Definition StartsWith (s p : string) : Prop := exists rest, s = p ++ rest.

Definition usageError : error :=
  Errorf "give a path to a JSON file containing a list of devices".

Definition flags_servers_args : Flags :=
  mkFlags 0 true "--disable traefik" "--node-label role=agent" 2
          "kubeconfig" "default" "ubuntu" "".

(** ** The token, the markers and the numerals, spelled out *)

(** The shell variable that carries the join token from the primary's
    block to the join blocks. *)
Definition tokenVariable : string := "NODE_TOKEN".

(** The command that assigns to the variable [v] the token fetched from
    [primary], and the argument by which a join command reads [v]. *)
Definition assignsToken (v : string) (f : Flags) (primary : Host) : string :=
  "export " ++ v ++ "=$(k3sup node-token --host " ++ IP primary ++
  " --user " ++ user f ++ ")".

Definition readsToken (v : string) : string :=
  "--node-token " ++ dq ++ "$" ++ v ++ dq.

(** [numeral] is the decimal numeral of [m]: read as a decimal it gives
    the digits of [m], with a sign for a negative [m] only and without
    leading zeros. *)
Definition decimal_of (numeral : string) (m : Z) : Prop :=
  NilZero.int_of_string numeral = Some (Z.to_int m).

(** The line that announces a worker, and the one that announces an
    additional server, by the numeral of its ordinal. *)
Definition workerLine (numeral : string) : string :=
  nl ++ "echo " ++ dq ++ "Setting up worker: " ++ numeral ++ dq ++ nl.

Definition serverLine (numeral : string) : string :=
  nl ++ "echo " ++ dq ++ "Setting up additional server: " ++ numeral ++ dq ++ nl.

Fixpoint last_char (s : string) : option ascii :=
  match s with
  | EmptyString => None
  | String c s' =>
      match last_char s' with
      | Some x => Some x
      | None => Some c
      end
  end.

(** The two halves of the rule of the background suffix. *)
Definition bg_ends_rule (f : Flags) (hosts : list Host) : Prop :=
  forall b, In b (plan_blocks f hosts) ->
    (EndsLineWith (renderedText b) bgSuffix <->
       background f = true /\
       (role b = AdditionalControlPlane \/ role b = Worker)).

Definition bg_primary_rule (f : Flags) (hosts : list Host) : Prop :=
  forall b, In b (plan_blocks f hosts) ->
    role b = PrimaryControlPlane -> ~ Contains (renderedText b) bgSuffix.

(** None of the strings copied into the primary's block [b] has the
    character [c]. *)
Definition primary_fields_without (c : ascii) (f : Flags) (b : CommandBlock)
  : Prop :=
  has_char c (hostAddress b) = false /\
  has_char c (user f) = false /\
  has_char c (kubeconfig f) = false /\
  has_char c (contextName f) = false /\
  has_char c (tlsSan f) = false /\
  has_char c (serverK3sExtraArgs f) = false.

(** None of the strings copied into the join blocks contains [q]. *)
Definition join_fields_free_of (q : string) (f : Flags) (hosts : list Host)
  : Prop :=
  ~ Contains (user f) q /\
  ~ Contains (tlsSan f) q /\
  ~ Contains (serverK3sExtraArgs f) q /\
  ~ Contains (agentK3sExtraArgs f) q /\
  (forall h, In h hosts -> ~ Contains (IP h) q).

(** ** The loop, step by step *)




(** ** Sample inputs *)

Definition flags_two_servers_limit_one : Flags :=
  mkFlags 1 false "" "" 2 "kubeconfig" "default" "root" "".

Definition hosts_two : list Host :=
  [ mkHost "node-1" "10.0.0.1"; mkHost "node-2" "10.0.0.2" ].

Definition flags_one_server : Flags :=
  mkFlags 0 false "" "" 1 "kubeconfig" "default" "root" "".

Definition hosts_renamed : list Host :=
  [ mkHost "alpha" "192.168.128.102";
    mkHost "" "192.168.128.103";
    mkHost "node-1" "192.168.128.104" ].

Definition flags_tls : Flags :=
  mkFlags 0 false "" "" 1 "kubeconfig" "default" "root" "10.0.0.9".

Definition flags_tls_in_args : Flags :=
  mkFlags 0 false ("--node-label a=b" ++ cont ++ "--tls-san 10.0.0.9") "" 1
          "kubeconfig" "default" "root" "".

Definition flags_amp_in_args : Flags :=
  mkFlags 0 false "--node-label team=R & D" "" 1
          "kubeconfig" "default" "root" "".

Definition flags_user_amp : Flags :=
  mkFlags 0 false "" "" 1 "kubeconfig" "default" "root &" "".

Definition flags_tls_amp : Flags :=
  mkFlags 0 false "" "" 2 "kubeconfig" "default" "root" "10.0.0.9 &".

Definition flags_cluster_context : Flags :=
  mkFlags 0 true "--disable traefik" "--node-label role=agent" 2
          "kubeconfig" "k3s--cluster" "ubuntu" "".

Definition flags_background : Flags :=
  mkFlags 0 true "" "" 1 "kubeconfig" "default" "root" "".

(** Membership of a field in a list of pieces, case by case. *)
Create HintDb fields.

Ltac field_cases Hin :=
  repeat (destruct Hin as [Hin|Hin];
          [ try discriminate Hin; injection Hin as <-; auto with fields |]);
  try contradiction.

(** The pieces of a join block are free of a text: by cases on the
    optional clauses, with [sep] the lemma on separated pieces. *)
Ltac join_pieces_free sep :=
  unfold joinServer_pieces, joinWorker_pieces, tlsSan_pieces,
    serverExtra_pieces, agentExtra_pieces, bg_pieces;
  match goal with
  | f : Flags |- _ =>
      destruct (nonempty (tlsSan f)), (nonempty (serverK3sExtraArgs f)),
        (nonempty (agentK3sExtraArgs f)), (background f)
  end;
  (apply sep; [discriminate | vm_compute; reflexivity |]);
  let s := fresh "s" in
  let Hin := fresh "Hin" in
  intros s Hin; cbn [app In] in Hin; field_cases Hin.

(** ** Basic facts on strings *)

Lemma append_assoc (a b c : string) : (a ++ b) ++ c = a ++ (b ++ c).
Proof. induction a as [|x a IH]; simpl; [reflexivity | now rewrite IH]. Qed.

Lemma append_nil_r (a : string) : a ++ "" = a.
Proof. induction a as [|x a IH]; simpl; [reflexivity | now rewrite IH]. Qed.

(** ** The blocks are the script *)

Lemma loop_body_script f i host st :
  script (loop_body f i host st) =
  script st ++ renderedText (block_of f i host (serversAdded st) (primaryServer st)).
Proof.
  unfold loop_body, block_of.
  destruct (serversAdded st =? 0); [|destruct (serversAdded st <? servers f)];
    cbn [script renderedText]; now rewrite !append_assoc.
Qed.

Lemma loop_body_counters f i host st s :
  serversAdded (loop_body f i host st) =
    serversAdded (loop_body f i host (mkState (serversAdded st) (primaryServer st) s)) /\
  primaryServer (loop_body f i host st) =
    primaryServer (loop_body f i host (mkState (serversAdded st) (primaryServer st) s)).
Proof.
  unfold loop_body; simpl.
  destruct (serversAdded st =? 0); [|destruct (serversAdded st <? servers f)];
    simpl; auto.
Qed.

Lemma range_loop_script f hosts : forall i st,
  script (range_loop f i hosts st) =
  script st ++ concat_text (blocks_from f i hosts (serversAdded st) (primaryServer st)).
Proof.
  induction hosts as [|host rest IH]; intros i st; simpl.
  - now rewrite append_nil_r.
  - destruct (loop_body_counters f i host st "") as [Ha Hp].
    destruct (limit_reached f i).
    + rewrite loop_body_script. simpl. now rewrite append_nil_r.
    + rewrite IH, loop_body_script, append_assoc, Ha, Hp. reflexivity.
Qed.

Lemma plan_script_blocks f hosts :
  plan_script f hosts = header ++ concat_text (plan_blocks f hosts).
Proof. unfold plan_script, plan_blocks. now rewrite range_loop_script. Qed.

(** ** Unfolding the loop *)

Lemma blocks_from_cons f i host rest added primary :
  blocks_from f i (host :: rest) added primary =
  block_of f i host added primary ::
  (if limit_reached f i then []
   else blocks_from f (i + 1) rest (next_added f added)
          (if added =? 0 then host else primary)).
Proof.
  simpl. unfold loop_body, next_added. cbn [serversAdded primaryServer].
  destruct (added =? 0); [|destruct (added <? servers f)]; reflexivity.
Qed.

Lemma role_block_of f i host added primary :
  role (block_of f i host added primary) =
  if added =? 0 then PrimaryControlPlane
  else if added <? servers f then AdditionalControlPlane else Worker.
Proof.
  unfold block_of.
  destruct (added =? 0); [|destruct (added <? servers f)]; reflexivity.
Qed.

Lemma hostAddress_block_of f i host added primary :
  hostAddress (block_of f i host added primary) = IP host.
Proof.
  unfold block_of.
  destruct (added =? 0); [|destruct (added <? servers f)]; reflexivity.
Qed.

Lemma block_of_set_nodeLimit f l i host added primary :
  block_of (set_nodeLimit f l) i host added primary = block_of f i host added primary.
Proof. reflexivity. Qed.

(** ** The limit truncates the input *)

Lemma limit_reached_off f i : nodeLimit f <= 0 -> limit_reached f i = false.
Proof.
  intros H. unfold limit_reached.
  destruct (0 <? nodeLimit f) eqn:E; [apply Z.ltb_lt in E; lia | reflexivity].
Qed.

Lemma blocks_from_unlimited f hosts : nodeLimit f <= 0 ->
  forall i added primary,
    blocks_from f i hosts added primary =
    blocks_from (set_nodeLimit f 0) i hosts added primary.
Proof.
  intros HL. induction hosts as [|host rest IH]; intros i added primary.
  - reflexivity.
  - rewrite !blocks_from_cons, block_of_set_nodeLimit.
    rewrite !limit_reached_off by (simpl; lia).
    f_equal. apply IH.
Qed.

Lemma blocks_from_limit f hosts : 0 < nodeLimit f ->
  forall i added primary, i < nodeLimit f ->
    blocks_from f i hosts added primary =
    blocks_from (set_nodeLimit f 0) i
      (firstn (Z.to_nat (nodeLimit f - i)) hosts) added primary.
Proof.
  intros HL. induction hosts as [|host rest IH]; intros i added primary Hi.
  - now rewrite firstn_nil.
  - replace (Z.to_nat (nodeLimit f - i)) with (S (Z.to_nat (nodeLimit f - (i + 1))))
      by lia.
    rewrite firstn_cons, !blocks_from_cons, block_of_set_nodeLimit.
    rewrite (limit_reached_off (set_nodeLimit f 0)) by (simpl; lia).
    f_equal. unfold limit_reached.
    destruct (0 <? nodeLimit f) eqn:E0; [|apply Z.ltb_ge in E0; lia].
    destruct (nodeLimit f <=? i + 1) eqn:E1; simpl.
    + apply Z.leb_le in E1.
      replace (nodeLimit f - (i + 1)) with 0 by lia. reflexivity.
    + apply Z.leb_gt in E1. apply IH. lia.
Qed.

Lemma length_blocks_unlimited f hosts : nodeLimit f <= 0 ->
  forall i added primary,
    List.length (blocks_from f i hosts added primary) = List.length hosts.
Proof.
  intros HL. induction hosts as [|host rest IH]; intros i added primary.
  - reflexivity.
  - rewrite blocks_from_cons, limit_reached_off by assumption.
    simpl. now rewrite IH.
Qed.

Lemma processed_bounds f hosts :
  0 <= processed f hosts <= Z.of_nat (List.length hosts).
Proof.
  unfold processed.
  destruct (0 <? nodeLimit f) eqn:E0; simpl; [|lia].
  destruct (nodeLimit f <? Z.of_nat (List.length hosts)) eqn:E1; [|lia].
  apply Z.ltb_lt in E0, E1. lia.
Qed.

(** The plan is the plan, without limit, of the hosts the loop visits. *)
Lemma plan_blocks_truncate f hosts :
  plan_blocks f hosts =
  plan_blocks (set_nodeLimit f 0) (firstn (Z.to_nat (processed f hosts)) hosts).
Proof.
  unfold plan_blocks, processed.
  destruct (0 <? nodeLimit f) eqn:E0; simpl.
  - apply Z.ltb_lt in E0. rewrite blocks_from_limit by lia.
    rewrite Z.sub_0_r.
    destruct (nodeLimit f <? Z.of_nat (List.length hosts)) eqn:E1; [reflexivity|].
    apply Z.ltb_ge in E1.
    rewrite Nat2Z.id, firstn_all, firstn_all2 by lia. reflexivity.
  - apply Z.ltb_ge in E0.
    rewrite Nat2Z.id, firstn_all. now apply blocks_from_unlimited.
Qed.

Lemma length_truncated f hosts :
  Z.of_nat (List.length (firstn (Z.to_nat (processed f hosts)) hosts)) =
  processed f hosts.
Proof.
  pose proof (processed_bounds f hosts). rewrite length_firstn. lia.
Qed.

Lemma length_plan_blocks f hosts :
  Z.of_nat (List.length (plan_blocks f hosts)) = processed f hosts.
Proof.
  rewrite plan_blocks_truncate. unfold plan_blocks.
  rewrite length_blocks_unlimited by (simpl; lia).
  apply length_truncated.
Qed.

Lemma hostAddress_blocks_unlimited f hosts : nodeLimit f <= 0 ->
  forall i added primary,
    map hostAddress (blocks_from f i hosts added primary) = map IP hosts.
Proof.
  intros HL. induction hosts as [|host rest IH]; intros i added primary.
  - reflexivity.
  - rewrite blocks_from_cons, limit_reached_off by assumption.
    simpl. now rewrite IH, hostAddress_block_of.
Qed.

(** ** Roles by position *)

Section Roles.

Variable f : Flags.
Hypothesis unlimited : nodeLimit f <= 0.

Lemma counter_at_next i added :
  counter_at f i added -> counter_at f (i + 1) (next_added f added).
Proof.
  unfold counter_at, next_added. intros [[-> ->]|[Hi ->]]; right.
  - simpl. lia.
  - destruct (Z.min i (Z.max 1 (servers f)) =? 0) eqn:E0; [apply Z.eqb_eq in E0; lia|].
    destruct (Z.min i (Z.max 1 (servers f)) <? servers f) eqn:E1;
      [apply Z.ltb_lt in E1 | apply Z.ltb_ge in E1]; lia.
Qed.

Lemma role_at_counter i added host primary :
  counter_at f i added ->
  role (block_of f i host added primary) = role_at (servers f) i.
Proof.
  rewrite role_block_of. unfold counter_at, role_at. intros [[-> ->]|[Hi ->]].
  - reflexivity.
  - destruct (Z.min i (Z.max 1 (servers f)) =? 0) eqn:E0; [apply Z.eqb_eq in E0; lia|].
    destruct (i =? 0) eqn:E2; [apply Z.eqb_eq in E2; lia|].
    destruct (Z.min i (Z.max 1 (servers f)) <? servers f) eqn:E1;
      destruct (i <? servers f) eqn:E3; try reflexivity;
      rewrite ?Z.ltb_lt, ?Z.ltb_ge in *; lia.
Qed.

Lemma role_nth hosts : forall i added primary k b,
  counter_at f i added ->
  nth_error (blocks_from f i hosts added primary) k = Some b ->
  role b = role_at (servers f) (i + Z.of_nat k).
Proof.
  induction hosts as [|host rest IH]; intros i added primary k b Hc Hk.
  - destruct k; discriminate.
  - rewrite blocks_from_cons, limit_reached_off in Hk by assumption.
    destruct k as [|k]; simpl in Hk.
    + injection Hk as <-. rewrite Z.add_0_r. now apply role_at_counter.
    + apply IH in Hk; [|now apply counter_at_next].
      rewrite Hk. f_equal. lia.
Qed.

Lemma is_control_plane_block_of i host added primary :
  is_control_plane (block_of f i host added primary) =
  (added =? 0) || (added <? servers f).
Proof.
  unfold is_control_plane. rewrite role_block_of.
  destruct (added =? 0); [|destruct (added <? servers f)]; reflexivity.
Qed.

Lemma count_control_plane_cons b bs :
  count_control_plane (b :: bs) =
  (if is_control_plane b then 1 else 0) + count_control_plane bs.
Proof.
  unfold count_control_plane. cbn [filter].
  destruct (is_control_plane b); cbn [List.length]; lia.
Qed.

(** Once the primary is set, the hosts still to become servers are
    those the counter lacks. *)
Lemma count_control_plane_joined hosts : forall i added primary,
  1 <= added ->
  count_control_plane (blocks_from f i hosts added primary) =
  Z.min (Z.max 0 (servers f - added)) (Z.of_nat (List.length hosts)).
Proof.
  induction hosts as [|host rest IH]; intros i added primary Ha.
  - unfold count_control_plane. cbn [blocks_from filter List.length]. lia.
  - rewrite blocks_from_cons, limit_reached_off by assumption.
    rewrite count_control_plane_cons, is_control_plane_block_of.
    rewrite IH by (unfold next_added;
                   destruct (added =? 0); [|destruct (added <? servers f)]; lia).
    unfold next_added. cbn [List.length].
    destruct (added =? 0) eqn:E0; [apply Z.eqb_eq in E0; lia|].
    destruct (added <? servers f) eqn:E1; cbn [orb];
      [apply Z.ltb_lt in E1 | apply Z.ltb_ge in E1]; lia.
Qed.

Lemma count_control_plane_plan hosts :
  hosts <> [] -> 1 <= servers f ->
  count_control_plane (plan_blocks f hosts) =
  Z.min (servers f) (Z.of_nat (List.length hosts)).
Proof.
  intros Hne Hc. destruct hosts as [|host rest]; [congruence|].
  unfold plan_blocks.
  rewrite blocks_from_cons, limit_reached_off by assumption.
  rewrite count_control_plane_cons, is_control_plane_block_of.
  rewrite count_control_plane_joined by (unfold next_added; simpl; lia).
  unfold next_added. cbn [Z.eqb orb List.length]. lia.
Qed.

End Roles.

Lemma count_roles_total bs :
  count_control_plane bs + count_workers bs = Z.of_nat (List.length bs).
Proof.
  unfold count_control_plane, count_workers, is_control_plane, is_worker.
  induction bs as [|b bs IH]; [reflexivity|]. cbn [filter].
  destruct (Role_eqb (role b) Worker); cbn [negb List.length] in *; lia.
Qed.

Lemma role_at_spec c j : 0 <= j ->
  (role_at c j = PrimaryControlPlane <-> j = 0) /\
  (role_at c j = AdditionalControlPlane <-> 0 < j < c) /\
  (role_at c j = Worker <-> 0 < j /\ c <= j).
Proof.
  intros Hj. unfold role_at.
  destruct (j =? 0) eqn:E0; [apply Z.eqb_eq in E0 | apply Z.eqb_neq in E0];
    [|destruct (j <? c) eqn:E1; [apply Z.ltb_lt in E1 | apply Z.ltb_ge in E1]];
    repeat split; intros; try discriminate; try lia.
Qed.

Lemma processed_positive f hosts : hosts <> [] -> 1 <= processed f hosts.
Proof.
  intros Hne. unfold processed.
  destruct hosts as [|h r]; [congruence|]. cbn [List.length].
  destruct (0 <? nodeLimit f) eqn:E0; cbn [andb]; [|lia].
  apply Z.ltb_lt in E0.
  destruct (nodeLimit f <? Z.of_nat (S (List.length r))); lia.
Qed.

Lemma truncated_nonempty f hosts :
  hosts <> [] -> firstn (Z.to_nat (processed f hosts)) hosts <> [].
Proof.
  intros Hne E. pose proof (processed_positive f hosts Hne).
  pose proof (length_truncated f hosts) as HL. rewrite E in HL. simpl in HL. lia.
Qed.

Lemma role_plan_nth f hosts k b :
  nth_error (plan_blocks f hosts) k = Some b ->
  role b = role_at (servers f) (Z.of_nat k).
Proof.
  rewrite plan_blocks_truncate. unfold plan_blocks. intros Hk.
  apply (role_nth (set_nodeLimit f 0)) in Hk;
    [exact Hk | simpl; lia | left; split; reflexivity].
Qed.

Lemma plan_blocks_head f host rest :
  exists bs,
    plan_blocks f (host :: rest) =
    mkBlock (IP host) PrimaryControlPlane
      (Template.primaryMarker ++ Template.install f host ++ Template.fetchToken f host)
    :: bs.
Proof.
  unfold plan_blocks. rewrite blocks_from_cons. eexists. reflexivity.
Qed.

(** ** Role assignment *)

(** C1, as amended: with [p] the number of hosts the loop visits (the
    limit when it is positive and below the length of the input, the
    length otherwise), the plan has [p] blocks, the block at position 0
    is the primary, a block at position [k] is an additional server iff
    [0 < k < c] and a worker iff [c <= k] with [0 < k]; [min c p] blocks
    have a control-plane role and [max 0 (p - c)] are workers. *)
Theorem roles_by_processed (f : Flags) (hosts : list Host) :
  hosts <> [] -> 1 <= servers f ->
  Z.of_nat (List.length (plan_blocks f hosts)) = processed f hosts /\
  (exists b, nth_error (plan_blocks f hosts) 0 = Some b /\
             role b = PrimaryControlPlane) /\
  (forall k b, nth_error (plan_blocks f hosts) k = Some b ->
     (role b = PrimaryControlPlane <-> k = 0%nat) /\
     (role b = AdditionalControlPlane <-> 0 < Z.of_nat k < servers f) /\
     (role b = Worker <-> (0 < k)%nat /\ servers f <= Z.of_nat k)) /\
  count_control_plane (plan_blocks f hosts) =
    Z.min (servers f) (processed f hosts) /\
  count_workers (plan_blocks f hosts) =
    Z.max 0 (processed f hosts - servers f).
Proof.
  intros Hne Hc.
  assert (Hcp : count_control_plane (plan_blocks f hosts) =
                Z.min (servers f) (processed f hosts)).
  { rewrite plan_blocks_truncate.
    rewrite (count_control_plane_plan (set_nodeLimit f 0));
      [| simpl; lia | now apply truncated_nonempty | exact Hc].
    rewrite length_truncated. reflexivity. }
  split; [apply length_plan_blocks|].
  split.
  { destruct hosts as [|host rest]; [congruence|].
    destruct (plan_blocks_head f host rest) as [bs ->].
    eexists. split; reflexivity. }
  split.
  { intros k b Hk. apply role_plan_nth in Hk. rewrite Hk.
    destruct (role_at_spec (servers f) (Z.of_nat k)) as (H1 & H2 & H3); [lia|].
    rewrite H1, H2, H3. repeat split; intros; lia. }
  split; [exact Hcp|].
  pose proof (count_roles_total (plan_blocks f hosts)) as Ht.
  rewrite length_plan_blocks in Ht. lia.
Qed.

(** C1 as stated fails under a limit: of two hosts with two servers
    wanted and a limit of one, a single host gets a control-plane role,
    not [min 2 2]. *)
Lemma roles_by_input_length_fails :
  ~ roles_by_input_length flags_two_servers_limit_one hosts_two.
Proof.
  intros H.
  destruct H as (_ & _ & _ & H & _); [simpl; lia | simpl; lia |].
  vm_compute in H. discriminate.
Qed.

Lemma roles_by_processed_witness :
  exampleHosts <> [] /\
  1 <= servers (mkFlags 2 false "" "" 3 "kubeconfig" "default" "root" "") /\
  count_control_plane
    (plan_blocks (mkFlags 2 false "" "" 3 "kubeconfig" "default" "root" "")
       exampleHosts) = 2.
Proof.
  assert (Hne : exampleHosts <> []) by discriminate.
  assert (Hc : 1 <= servers (mkFlags 2 false "" "" 3 "kubeconfig" "default" "root" ""))
    by (simpl; lia).
  split; [exact Hne|]. split; [exact Hc|].
  exact (proj1 (proj2 (proj2 (proj2
    (roles_by_processed (mkFlags 2 false "" "" 3 "kubeconfig" "default" "root" "")
       exampleHosts Hne Hc))))).
Defined.

(** ** The host limit *)

Lemma processed_limited f hosts :
  0 < nodeLimit f < Z.of_nat (List.length hosts) ->
  processed f hosts = nodeLimit f.
Proof.
  intros [H0 H1]. unfold processed.
  apply Z.ltb_lt in H0, H1. now rewrite H0, H1.
Qed.

Lemma processed_unlimited f hosts :
  nodeLimit f <= 0 -> processed f hosts = Z.of_nat (List.length hosts).
Proof.
  intros H. unfold processed.
  destruct (0 <? nodeLimit f) eqn:E; [apply Z.ltb_lt in E; lia | reflexivity].
Qed.

Lemma plan_blocks_addresses f hosts :
  map hostAddress (plan_blocks f hosts) =
  map IP (firstn (Z.to_nat (processed f hosts)) hosts).
Proof.
  rewrite plan_blocks_truncate. unfold plan_blocks.
  apply hostAddress_blocks_unlimited. simpl. lia.
Qed.

(** C2: under a limit [L] with [0 < L < n] the plan has exactly [L]
    blocks, those of the first [L] hosts, and they are, roles included,
    the blocks planned for the input cut to its first [L] hosts (with or
    without the limit); under a limit [L <= 0] each of the [n] hosts has
    its block. *)
Theorem limit_truncates (f : Flags) (hosts : list Host) :
  (0 < nodeLimit f < Z.of_nat (List.length hosts) ->
     Z.of_nat (List.length (plan_blocks f hosts)) = nodeLimit f /\
     map hostAddress (plan_blocks f hosts) =
       map IP (firstn (Z.to_nat (nodeLimit f)) hosts) /\
     map role (plan_blocks f hosts) =
       map role (plan_blocks (set_nodeLimit f 0)
                   (firstn (Z.to_nat (nodeLimit f)) hosts)) /\
     plan_blocks f hosts =
       plan_blocks f (firstn (Z.to_nat (nodeLimit f)) hosts)) /\
  (nodeLimit f <= 0 ->
     List.length (plan_blocks f hosts) = List.length hosts /\
     map hostAddress (plan_blocks f hosts) = map IP hosts).
Proof.
  split.
  - intros HL. pose proof (processed_limited f hosts HL) as Hp.
    split; [now rewrite length_plan_blocks|].
    split; [now rewrite plan_blocks_addresses, Hp|].
    split; [now rewrite plan_blocks_truncate, Hp|].
    rewrite (plan_blocks_truncate f (firstn _ hosts)).
    rewrite (plan_blocks_truncate f hosts), Hp.
    assert (Hp' : processed f (firstn (Z.to_nat (nodeLimit f)) hosts) = nodeLimit f).
    { unfold processed. rewrite length_firstn.
      replace (Z.of_nat (Nat.min (Z.to_nat (nodeLimit f)) (List.length hosts)))
        with (nodeLimit f) by lia.
      rewrite Z.ltb_irrefl, andb_false_r. reflexivity. }
    rewrite Hp'. f_equal.
    rewrite firstn_firstn. f_equal. lia.
  - intros HL. pose proof (processed_unlimited f hosts HL) as Hp. split.
    + apply Nat2Z.inj. now rewrite length_plan_blocks.
    + rewrite plan_blocks_addresses, Hp, Nat2Z.id, firstn_all. reflexivity.
Qed.

Lemma limit_truncates_witness :
  List.length
    (plan_blocks (mkFlags 2 false "" "" 3 "kubeconfig" "default" "root" "")
       exampleHosts) = 2%nat /\
  List.length
    (plan_blocks (mkFlags 0 false "" "" 3 "kubeconfig" "default" "root" "")
       exampleHosts) = 3%nat.
Proof.
  split.
  - apply Nat2Z.inj.
    apply (proj1 (limit_truncates
             (mkFlags 2 false "" "" 3 "kubeconfig" "default" "root" "") exampleHosts)).
    simpl. lia.
  - apply (proj2 (limit_truncates
             (mkFlags 0 false "" "" 3 "kubeconfig" "default" "root" "") exampleHosts)).
    simpl. lia.
Defined.

(** ** A server count below one *)

Lemma block_of_servers_clamped f i host added primary :
  servers f <= 0 -> 0 <= added ->
  block_of f i host added primary = block_of (set_servers f 1) i host added primary.
Proof.
  intros Hc Ha. unfold block_of. cbn [servers set_servers].
  destruct (added =? 0) eqn:E0; [reflexivity|]. apply Z.eqb_neq in E0.
  destruct (added <? servers f) eqn:E1; [apply Z.ltb_lt in E1; lia|].
  destruct (added <? 1) eqn:E2; [apply Z.ltb_lt in E2; lia|].
  reflexivity.
Qed.

Lemma next_added_servers_clamped f added :
  servers f <= 0 -> 0 <= added ->
  next_added f added = next_added (set_servers f 1) added /\
  0 <= next_added f added.
Proof.
  intros Hc Ha. unfold next_added. cbn [servers set_servers].
  destruct (added =? 0) eqn:E0; [split; [reflexivity | lia]|]. apply Z.eqb_neq in E0.
  destruct (added <? servers f) eqn:E1; [apply Z.ltb_lt in E1; lia|].
  destruct (added <? 1) eqn:E2; [apply Z.ltb_lt in E2; lia|].
  split; [reflexivity | lia].
Qed.

Lemma blocks_from_servers_clamped f hosts : servers f <= 0 ->
  forall i added primary, 0 <= added ->
    blocks_from f i hosts added primary =
    blocks_from (set_servers f 1) i hosts added primary.
Proof.
  intros Hc. induction hosts as [|host rest IH]; intros i added primary Ha.
  - reflexivity.
  - rewrite !blocks_from_cons.
    destruct (next_added_servers_clamped f added Hc Ha) as [<- Hn].
    rewrite <- block_of_servers_clamped by assumption.
    change (limit_reached (set_servers f 1) i) with (limit_reached f i).
    destruct (limit_reached f i); [reflexivity|].
    now rewrite IH.
Qed.

(** C6: with a server count [<= 0] the planner does what it does with a
    server count of 1: the same blocks and the same script; on a
    non-empty input the first block is the primary, no block is an
    additional server and every later block is a worker. *)
Theorem servers_below_one_as_one (f : Flags) (hosts : list Host) :
  hosts <> [] -> servers f <= 0 ->
  plan_blocks f hosts = plan_blocks (set_servers f 1) hosts /\
  plan_script f hosts = plan_script (set_servers f 1) hosts /\
  (exists b, nth_error (plan_blocks f hosts) 0 = Some b /\
             role b = PrimaryControlPlane) /\
  (forall k b, nth_error (plan_blocks f hosts) k = Some b ->
     role b <> AdditionalControlPlane /\
     (role b = PrimaryControlPlane <-> k = 0%nat) /\
     (role b = Worker <-> (0 < k)%nat)).
Proof.
  intros Hne Hc.
  assert (Hb : plan_blocks f hosts = plan_blocks (set_servers f 1) hosts).
  { unfold plan_blocks. apply blocks_from_servers_clamped; [exact Hc | lia]. }
  split; [exact Hb|].
  split; [now rewrite !plan_script_blocks, Hb|].
  split.
  { destruct hosts as [|host rest]; [congruence|].
    destruct (plan_blocks_head f host rest) as [bs ->].
    eexists. split; reflexivity. }
  intros k b Hk. apply role_plan_nth in Hk. rewrite Hk.
  destruct (role_at_spec (servers f) (Z.of_nat k)) as (H1 & H2 & H3); [lia|].
  rewrite H1, H3. split; [|split].
  - intros E. apply H2 in E. lia.
  - split; intros; lia.
  - split; intros; lia.
Qed.

Lemma servers_below_one_as_one_witness :
  exampleHosts <> [] /\
  servers (mkFlags 0 false "" "" (-2) "kubeconfig" "default" "root" "") <= 0 /\
  plan_script (mkFlags 0 false "" "" (-2) "kubeconfig" "default" "root" "")
    exampleHosts =
  plan_script (mkFlags 0 false "" "" 1 "kubeconfig" "default" "root" "")
    exampleHosts.
Proof.
  assert (Hne : exampleHosts <> []) by discriminate.
  assert (Hc : servers (mkFlags 0 false "" "" (-2) "kubeconfig" "default" "root" "") <= 0)
    by (simpl; lia).
  split; [exact Hne|]. split; [exact Hc|].
  exact (proj1 (proj2
    (servers_below_one_as_one
       (mkFlags 0 false "" "" (-2) "kubeconfig" "default" "root" "")
       exampleHosts Hne Hc))).
Defined.

(** ** Worker ordinals *)

Lemma count_workers_cons b bs :
  count_workers (b :: bs) = (if is_worker b then 1 else 0) + count_workers bs.
Proof.
  unfold count_workers. cbn [filter].
  destruct (is_worker b); cbn [List.length]; lia.
Qed.

Lemma is_worker_block_of f i host added primary :
  is_worker (block_of f i host added primary) =
  negb (added =? 0) && negb (added <? servers f).
Proof.
  unfold is_worker. rewrite role_block_of.
  destruct (added =? 0); [|destruct (added <? servers f)]; reflexivity.
Qed.

(** The difference between position and counter grows by one at each
    worker and at no other block. *)
Lemma worker_offset_step f i host added primary :
  (i + 1) - next_added f added =
  (i - added) + (if is_worker (block_of f i host added primary) then 1 else 0).
Proof.
  rewrite is_worker_block_of. unfold next_added.
  destruct (added =? 0) eqn:E0; [apply Z.eqb_eq in E0; simpl; lia|].
  destruct (added <? servers f); simpl; lia.
Qed.

Lemma worker_marker_from f hosts : forall i added primary k b,
  nth_error (blocks_from f i hosts added primary) k = Some b ->
  role b = Worker ->
  exists rest,
    renderedText b =
    Template.workerMarker
      ((i - added) +
       count_workers (firstn k (blocks_from f i hosts added primary)) + 1) ++ rest.
Proof.
  induction hosts as [|host rest IH]; intros i added primary k b Hk Hr.
  - destruct k; discriminate.
  - rewrite blocks_from_cons in *. destruct k as [|k].
    + injection Hk as <-. cbn [firstn].
      exists (Template.joinWorker f host primary).
      revert Hr. unfold block_of.
      destruct (added =? 0); [discriminate|].
      destruct (added <? servers f); [discriminate|]. intros _.
      cbn [renderedText]. do 2 f_equal. unfold count_workers. simpl. lia.
    + cbn [nth_error firstn] in *. rewrite count_workers_cons.
      destruct (limit_reached f i); [destruct k; discriminate|].
      destruct (IH _ _ _ _ _ Hk Hr) as [tl ->]. exists tl.
      do 2 f_equal. rewrite (worker_offset_step f i host added primary). lia.
Qed.

Lemma fmt_d_decimal z : decimal_of (fmt_d z) z.
Proof.
  unfold decimal_of, fmt_d. apply NilZero.isi; destruct z; simpl;
    try discriminate; intros [= H];
    exact (DecimalPos.Unsigned.to_uint_nonnil _ H).
Qed.

Lemma workerMarker_line n : Template.workerMarker n = workerLine (fmt_d n).
Proof. reflexivity. Qed.

(** C7: a worker block at position [k] of the plan opens with the line
    [echo "Setting up worker: m"], between two newlines, where the
    numeral is the decimal numeral of [m], one more than the number of
    worker blocks before it; [m] is also the 1-based position [k + 1]
    less the number of control-plane blocks before it.  The limit plays
    no part. *)
Theorem worker_marker_ordinal (f : Flags) (hosts : list Host) (k : nat)
    (b : CommandBlock) :
  nth_error (plan_blocks f hosts) k = Some b ->
  role b = Worker ->
  (exists numeral rest,
     renderedText b =
       nl ++ "echo " ++ dq ++ "Setting up worker: " ++ numeral ++ dq ++ nl ++ rest /\
     renderedText b = workerLine numeral ++ rest /\
     decimal_of numeral (count_workers (firstn k (plan_blocks f hosts)) + 1)) /\
  count_workers (firstn k (plan_blocks f hosts)) + 1 =
    (Z.of_nat k + 1) - count_control_plane (firstn k (plan_blocks f hosts)).
Proof.
  intros Hk Hr. split.
  - destruct (worker_marker_from f hosts 0 0 zeroHost k b Hk Hr) as [rest E].
    exists (fmt_d (count_workers (firstn k (plan_blocks f hosts)) + 1)), rest.
    rewrite workerMarker_line in E. cbn [Z.sub Z.add Z.opp] in E.
    split; [|split; [exact E | apply fmt_d_decimal]].
    rewrite E. unfold workerLine. rewrite !append_assoc. reflexivity.
  - pose proof (count_roles_total (firstn k (plan_blocks f hosts))) as Ht.
    assert (Hlt : (k < List.length (plan_blocks f hosts))%nat).
    { apply nth_error_Some. rewrite Hk. discriminate. }
    rewrite length_firstn in Ht. lia.
Qed.

Lemma worker_marker_ordinal_witness :
  exists b rest,
    nth_error (plan_blocks flags_one_server exampleHosts) 2 = Some b /\
    role b = Worker /\
    renderedText b =
      nl ++ "echo " ++ dq ++ "Setting up worker: 2" ++ dq ++ nl ++ rest.
Proof.
  eexists.
  destruct (proj1 (worker_marker_ordinal flags_one_server exampleHosts 2 _
                     eq_refl eq_refl)) as (numeral & rest & E & _ & D).
  exists rest. split; [reflexivity|]. split; [reflexivity|].
  apply NilZero.sis in D. rewrite <- D in E. exact E.
Defined.

(** ** Only addresses reach the script *)

Lemma block_of_IP f i h1 h2 added p1 p2 :
  IP h1 = IP h2 -> IP p1 = IP p2 ->
  block_of f i h1 added p1 = block_of f i h2 added p2.
Proof.
  intros Hh Hp.
  unfold block_of, Template.install, Template.fetchToken, Template.joinServer,
    Template.joinWorker.
  now rewrite Hh, Hp.
Qed.

Lemma blocks_from_IP f hosts1 : forall hosts2 i added p1 p2,
  map IP hosts1 = map IP hosts2 -> IP p1 = IP p2 ->
  blocks_from f i hosts1 added p1 = blocks_from f i hosts2 added p2.
Proof.
  induction hosts1 as [|h1 r1 IH]; intros [|h2 r2] i added p1 p2 Hm Hp;
    try discriminate.
  - reflexivity.
  - injection Hm as Hh Hr. rewrite !blocks_from_cons.
    rewrite (block_of_IP f i h1 h2 added p1 p2 Hh Hp).
    destruct (limit_reached f i); [reflexivity|].
    f_equal. apply IH; [exact Hr|]. now destruct (added =? 0).
Qed.

(** C10: two inputs of the same length whose hosts agree on [IP],
    position by position, yield the same script under the same flags,
    whatever their [Hostname] fields are. *)
Theorem script_ignores_hostnames (f : Flags) (hosts1 hosts2 : list Host) :
  map IP hosts1 = map IP hosts2 ->
  plan_script f hosts1 = plan_script f hosts2.
Proof.
  intros Hm. rewrite !plan_script_blocks. unfold plan_blocks.
  now rewrite (blocks_from_IP f hosts1 hosts2 0 0 zeroHost zeroHost Hm eq_refl).
Qed.

Lemma script_ignores_hostnames_witness :
  map IP exampleHosts = map IP hosts_renamed /\
  plan_script flags_one_server exampleHosts =
  plan_script flags_one_server hosts_renamed.
Proof.
  split; [reflexivity|].
  apply (script_ignores_hostnames flags_one_server exampleHosts hosts_renamed).
  reflexivity.
Defined.

(** ** The empty input *)

(** C8: when the file decodes to the empty list of hosts, [RunE] returns
    no error and prints the header alone; the plan has no block. *)
Theorem empty_hosts_empty_plan
    (ReadFile : string -> string + error)
    (Unmarshal : string -> list Host + error)
    (MarshalIndent : list Host -> string + error)
    (f : Flags) (name data : string) (args : list string) :
  ReadFile name = inl data ->
  Unmarshal data = inl [] ->
  RunE ReadFile Unmarshal MarshalIndent false f (name :: args) =
    (header ++ nl, None) /\
  plan_script f [] = header /\
  plan_blocks f [] = [].
Proof.
  intros Hr Hu. unfold RunE. rewrite Hr, Hu.
  repeat split.
Qed.

Lemma empty_hosts_empty_plan_witness :
  RunE (fun _ => inl "[]") (fun _ => inl []) (fun _ => inl "")
       false flags_one_server ["hosts.json"] =
  ("#!/bin/sh" ++ nl ++ nl ++ nl, None).
Proof.
  apply (empty_hosts_empty_plan
           (fun _ => inl "[]") (fun _ => inl []) (fun _ => inl "")
           flags_one_server "hosts.json" "[]" []); reflexivity.
Defined.

(** ** Determinism *)







(** ** Occurrences in strings *)

Lemma prefix_app p post : prefix p (p ++ post) = true.
Proof.
  induction p as [|c p IH]; simpl; [now destruct post|].
  destruct (ascii_dec c c); [exact IH | congruence].
Qed.

Lemma prefix_inv p : forall s, prefix p s = true -> exists post, s = p ++ post.
Proof.
  induction p as [|c p IH]; intros s H.
  - exists s. reflexivity.
  - destruct s as [|x s]; cbn [prefix] in H; [discriminate|].
    destruct (ascii_dec c x) as [->|]; [|discriminate].
    destruct (IH s H) as [post ->]. exists post. reflexivity.
Qed.

Lemma Contains_here pre p post : Contains (pre ++ p ++ post) p.
Proof. exists pre, post. reflexivity. Qed.

Lemma Contains_app_l a b p : Contains a p -> Contains (a ++ b) p.
Proof.
  intros (pre & post & ->). exists pre, (post ++ b).
  now rewrite !append_assoc.
Qed.

Lemma Contains_app_r a b p : Contains b p -> Contains (a ++ b) p.
Proof.
  intros (pre & post & ->). exists (a ++ pre), post.
  now rewrite !append_assoc.
Qed.

Lemma Contains_String c s p : Contains s p -> Contains (String c s) p.
Proof. apply (Contains_app_r (String c "")). Qed.

Lemma Contains_trans s q p : Contains s q -> Contains q p -> Contains s p.
Proof.
  intros (pre & post & ->) H. apply Contains_app_r, Contains_app_l, H.
Qed.

Lemma containsb_prefix s p : prefix p s = true -> containsb s p = true.
Proof. intros H. destruct s; cbn [containsb]; now rewrite H. Qed.

Lemma containsb_spec s p : containsb s p = true <-> Contains s p.
Proof.
  split.
  - induction s as [|c s IH]; cbn [containsb]; intros H.
    + rewrite orb_false_r in H. destruct (prefix_inv _ _ H) as [post E].
      exists "", post. exact E.
    + apply orb_true_iff in H as [H|H].
      * destruct (prefix_inv _ _ H) as [post E]. exists "", post. exact E.
      * apply Contains_String, IH, H.
  - intros (pre & post & ->). induction pre as [|c pre IH].
    + cbn [append]. apply containsb_prefix, prefix_app.
    + cbn [append containsb]. rewrite IH. apply orb_true_r.
Qed.

Lemma containsb_false s p : containsb s p = false -> ~ Contains s p.
Proof. intros H C. apply containsb_spec in C. congruence. Qed.

Lemma has_char_app c a b : has_char c (a ++ b) = has_char c a || has_char c b.
Proof.
  induction a as [|x a IH]; simpl; [reflexivity|].
  now rewrite IH, orb_assoc.
Qed.

Lemma Contains_has_char s p c :
  Contains s p -> has_char c p = true -> has_char c s = true.
Proof.
  intros (pre & post & ->) H.
  rewrite !has_char_app, H. apply orb_true_iff. right. reflexivity.
Qed.

Lemma Contains_empty_inv p : Contains "" p -> p = "".
Proof.
  intros (pre & post & E). destruct pre; [|discriminate].
  destruct p; [reflexivity | discriminate].
Qed.

(** A string without [d] that opens [a ++ String d b] lies within [a]. *)
Lemma prefix_before_sep d p : has_char d p = false ->
  forall a b post, p ++ post = a ++ String d b -> exists post', a = p ++ post'.
Proof.
  intros Hd. induction p as [|x p IH]; intros a b post E.
  - exists a. reflexivity.
  - simpl in Hd. apply orb_false_iff in Hd as [Hx Hp].
    destruct a as [|y a]; simpl in E; injection E as -> E.
    + rewrite Ascii.eqb_refl in Hx. discriminate.
    + destruct (IH Hp a b post E) as [post' ->]. exists post'. reflexivity.
Qed.

(** An occurrence of [p] cannot span a character foreign to [p]. *)
Lemma Contains_split d p a b : has_char d p = false ->
  Contains (a ++ String d b) p -> Contains a p \/ Contains b p.
Proof.
  intros Hd (pre & post & E). revert a E.
  induction pre as [|y pre IH]; intros a E.
  - left. cbn [append] in E. symmetry in E.
    destruct (prefix_before_sep d p Hd a b post E) as [post' ->].
    exists "", post'. reflexivity.
  - destruct a as [|x a]; simpl in E; injection E as -> E.
    + right. exists pre, post. exact E.
    + destruct (IH a E) as [H|H]; [left; now apply Contains_String | now right].
Qed.

Lemma ends_with_sep_inv p s : ends_with_sep p s = true ->
  exists s' d, s = s' ++ String d "" /\ has_char d p = false.
Proof.
  induction s as [|c s IH]; [discriminate|]. intros H.
  destruct s as [|c' s].
  - exists "", c. split; [reflexivity|]. simpl in H. now apply negb_true_iff.
  - destruct (IH H) as (s' & d & E & Hd). exists (String c s'), d.
    split; [|exact Hd]. simpl. now rewrite <- E.
Qed.

Lemma render_app ps qs : render (ps ++ qs) = render ps ++ render qs.
Proof.
  induction ps as [|x ps IH]; simpl; [reflexivity|].
  now rewrite IH, append_assoc.
Qed.

(** Literals that are free of [p], fields that are free of [p], and a
    separator at each seam: the whole text is free of [p]. *)
Lemma separated_free p ps :
  p <> "" -> separated p ps = true -> fields_free p ps ->
  ~ Contains (render ps) p.
Proof.
  intros Hp. induction ps as [|x ps IH]; intros Hs Hf C.
  - apply Contains_empty_inv in C. contradiction.
  - assert (Hf' : fields_free p ps) by (intros s Hin; apply Hf; now right).
    destruct x as [s|s]; cbn [separated] in Hs.
    + apply andb_true_iff in Hs as [Hs Hrest].
      apply andb_true_iff in Hs as [Hfree Hend].
      apply negb_true_iff, containsb_false in Hfree.
      destruct (ends_with_sep_inv _ _ Hend) as (s' & d & -> & Hd).
      cbn [render fold_right piece_text] in C.
      rewrite append_assoc in C. cbn [append] in C.
      destruct (Contains_split d p _ _ Hd C) as [H|H].
      * apply Hfree. now apply Contains_app_l.
      * exact (IH Hrest Hf' H).
    + apply andb_true_iff in Hs as [Hnext Hrest].
      assert (Hs' : ~ Contains s p) by (apply Hf; now left).
      destruct ps as [|[l|l] ps]; [| |discriminate].
      * cbn in C. rewrite append_nil_r in C. contradiction.
      * destruct l as [|d l]; [discriminate|].
        cbn [starts_with_sep] in Hnext. apply negb_true_iff in Hnext.
        cbn [render fold_right piece_text append] in C.
        destruct (Contains_split d p _ _ Hnext C) as [H|H]; [contradiction|].
        apply (IH Hrest Hf').
        cbn [render fold_right piece_text append]. now apply Contains_String.
Qed.

(** ** The digits of [%d] *)

Lemma string_of_uint_chars c d :
  has_char c (NilEmpty.string_of_uint d) = true ->
  has_char c "0123456789" = true.
Proof.
  induction d; cbn [NilEmpty.string_of_uint has_char]; intros H;
    try discriminate;
    apply orb_true_iff in H as [H|H];
    try (apply IHd in H; exact H);
    apply Ascii.eqb_eq in H; subst; reflexivity.
Qed.

Lemma fmt_d_chars c z :
  has_char c (fmt_d z) = true -> has_char c "-0123456789" = true.
Proof.
  unfold fmt_d, NilZero.string_of_int, NilZero.string_of_uint.
  assert (H0 : has_char c "0" = true -> has_char c "-0123456789" = true).
  { simpl. rewrite !orb_false_r. intros ->. now rewrite orb_true_r. }
  assert (Hu : forall d, has_char c (NilEmpty.string_of_uint d) = true ->
                         has_char c "-0123456789" = true).
  { intros d H. apply string_of_uint_chars in H.
    cbn [has_char]. rewrite orb_true_iff. right. exact H. }
  destruct (Z.to_int z) as [d|d].
  - destruct d; [exact H0 | apply Hu ..].
  - cbn [has_char]. intros H. apply orb_true_iff in H as [H|H].
    + now rewrite H.
    + rewrite orb_true_iff. right.
      destruct d; [| apply string_of_uint_chars in H; exact H ..].
      revert H. simpl. rewrite !orb_false_r. intros ->. reflexivity.
Qed.

(** ** The shape of a plan *)

Lemma next_added_joined f added : 1 <= added -> 1 <= next_added f added.
Proof.
  intros H. unfold next_added.
  destruct (added =? 0); [|destruct (added <? servers f)]; lia.
Qed.

(** After the primary, every block is rendered against that primary. *)
Lemma joined_blocks f hosts : forall i added primary b,
  1 <= added ->
  In b (blocks_from f i hosts added primary) ->
  exists i' host added',
    In host hosts /\ 1 <= added' /\ b = block_of f i' host added' primary.
Proof.
  induction hosts as [|host rest IH]; intros i added primary b Ha Hin.
  - contradiction.
  - rewrite blocks_from_cons in Hin. destruct Hin as [<-|Hin].
    + exists i, host, added. repeat split; [now left | exact Ha].
    + destruct (limit_reached f i); [contradiction|].
      assert (E : (added =? 0) = false) by (apply Z.eqb_neq; lia).
      rewrite E in Hin.
      destruct (IH _ _ _ _ (next_added_joined f added Ha) Hin)
        as (i' & h & a' & Hh & Ha' & ->).
      exists i', h, a'. repeat split; [now right | exact Ha'].
Qed.

Lemma plan_blocks_nth_cases f p rest k b :
  nth_error (plan_blocks f (p :: rest)) k = Some b ->
  (k = 0%nat /\ b = block_of f 0 p 0 zeroHost) \/
  ((0 < k)%nat /\
   exists i host added,
     In host rest /\ 1 <= added /\ b = block_of f i host added p).
Proof.
  unfold plan_blocks. rewrite blocks_from_cons. destruct k as [|k]; simpl.
  - intros [= <-]. left. split; reflexivity.
  - intros Hk. right. split; [lia|].
    destruct (limit_reached f 0); [destruct k; discriminate|].
    apply nth_error_In in Hk.
    apply (joined_blocks f rest) in Hk; [exact Hk | unfold next_added; simpl; lia].
Qed.

Lemma plan_blocks_In_cases f hosts b :
  In b (plan_blocks f hosts) ->
  exists p rest,
    hosts = p :: rest /\
    (b = block_of f 0 p 0 zeroHost \/
     exists i host added,
       In host rest /\ 1 <= added /\ b = block_of f i host added p).
Proof.
  intros Hin. destruct hosts as [|p rest]; [contradiction|].
  exists p, rest. split; [reflexivity|].
  apply In_nth_error in Hin as [k Hk].
  destruct (plan_blocks_nth_cases f p rest k b Hk) as [[_ ->]|[_ H]]; auto.
Qed.

(** ** The join token and the primary's address *)

Lemma Contains_self s : Contains s s.
Proof. exists "", "". cbn [append]. now rewrite append_nil_r. Qed.

Lemma primary_block_captures f p :
  Contains (renderedText (block_of f 0 p 0 zeroHost)) (captureToken f p).
Proof.
  cbn [block_of Z.eqb renderedText].
  do 2 apply Contains_app_r. unfold Template.fetchToken, captureToken.
  exists (nl ++ "echo " ++ dq ++ "Fetching the server's node-token into memory" ++
          dq ++ nl ++ nl), nl.
  rewrite !append_assoc. reflexivity.
Qed.

Lemma join_block_references f i host added p :
  1 <= added ->
  role (block_of f i host added p) <> PrimaryControlPlane /\
  Contains (renderedText (block_of f i host added p)) (serverHostRef p) /\
  Contains (renderedText (block_of f i host added p)) Template.tokenRef.
Proof.
  intros Ha. unfold block_of.
  destruct (added =? 0) eqn:E0; [apply Z.eqb_eq in E0; lia|].
  destruct (added <? servers f); cbn [role renderedText];
    (split; [discriminate|]); split; apply Contains_app_r.
  - unfold Template.joinServer, serverHostRef.
    exists ("k3sup join" ++ cont ++ "--host " ++ IP host ++ cont),
           (cont ++ "--server" ++ cont ++ Template.tokenRef ++ cont ++
            "--user " ++ user f ++ tlsSanStr f ++ serverExtraArgsSt f ++
            bgStr f ++ nl).
    rewrite !append_assoc. reflexivity.
  - unfold Template.joinServer.
    exists ("k3sup join" ++ cont ++ "--host " ++ IP host ++ cont ++
            "--server-host " ++ IP p ++ cont ++ "--server" ++ cont),
           (cont ++ "--user " ++ user f ++ tlsSanStr f ++ serverExtraArgsSt f ++
            bgStr f ++ nl).
    rewrite !append_assoc. reflexivity.
  - unfold Template.joinWorker, serverHostRef.
    exists ("k3sup join" ++ cont ++ "--host " ++ IP host ++ cont),
           (cont ++ Template.tokenRef ++ cont ++
            "--user " ++ user f ++ agentExtraArgsSt f ++ bgStr f ++ nl).
    rewrite !append_assoc. reflexivity.
  - unfold Template.joinWorker.
    exists ("k3sup join" ++ cont ++ "--host " ++ IP host ++ cont ++
            "--server-host " ++ IP p ++ cont),
           (cont ++ "--user " ++ user f ++ agentExtraArgsSt f ++ bgStr f ++ nl).
    rewrite !append_assoc. reflexivity.
Qed.

(** C3: on an input whose first host is [p], the block at position 0 is
    the primary's, rendered for the address of [p], and holds the command
    [export NODE_TOKEN=$(k3sup node-token --host <address of p> --user
    <user>)] that assigns the fetched token to the variable [NODE_TOKEN];
    every additional-server or worker block stands at a later position,
    and its text contains the address of [p] verbatim, as the argument of
    [--server-host], and reads that same variable in
    [--node-token "$NODE_TOKEN"]. *)
Theorem join_blocks_reference_primary (f : Flags) (hosts : list Host) (p : Host) :
  hd_error hosts = Some p ->
  (exists b0,
     nth_error (plan_blocks f hosts) 0 = Some b0 /\
     role b0 = PrimaryControlPlane /\
     hostAddress b0 = IP p /\
     Contains (renderedText b0) (assignsToken tokenVariable f p)) /\
  (forall k b,
     nth_error (plan_blocks f hosts) k = Some b ->
     role b = AdditionalControlPlane \/ role b = Worker ->
     (0 < k)%nat /\
     Contains (renderedText b) (IP p) /\
     Contains (renderedText b) (serverHostRef p) /\
     Contains (renderedText b) (readsToken tokenVariable)).
Proof.
  intros Hp. destruct hosts as [|p' rest]; [discriminate|].
  injection Hp as ->. split.
  - exists (block_of f 0 p 0 zeroHost). split; [|split; [|split]].
    + unfold plan_blocks. now rewrite blocks_from_cons.
    + reflexivity.
    + reflexivity.
    + exact (primary_block_captures f p).
  - intros k b Hk Hr.
    destruct (plan_blocks_nth_cases f p rest k b Hk)
      as [[_ ->]|[Hpos (i & host & added & _ & Ha & ->)]].
    + destruct Hr as [Hr|Hr]; discriminate.
    + destruct (join_block_references f i host added p Ha) as (_ & Hs & Ht).
      split; [exact Hpos|]. split; [|split; [exact Hs | exact Ht]].
      apply (Contains_trans _ _ _ Hs). unfold serverHostRef.
      apply Contains_app_r, Contains_self.
Qed.

Lemma join_blocks_reference_primary_witness :
  hd_error exampleHosts = Some (mkHost "node-1" "192.168.128.102") /\
  exists b,
    nth_error (plan_blocks flags_one_server exampleHosts) 1 = Some b /\
    role b = Worker /\
    Contains (renderedText b) "192.168.128.102" /\
    Contains (renderedText b) ("--node-token " ++ dq ++ "$NODE_TOKEN" ++ dq).
Proof.
  split; [reflexivity|].
  eexists. split; [reflexivity|]. split; [reflexivity|].
  destruct (proj2 (join_blocks_reference_primary flags_one_server exampleHosts
                     (mkHost "node-1" "192.168.128.102") eq_refl)
                  1%nat _ eq_refl (or_intror eq_refl)) as (_ & Hi & _ & Ht).
  split; [exact Hi | exact Ht].
Defined.

(** ** The templates, piece by piece *)

Lemma nonempty_spec s : nonempty s = true <-> s <> "".
Proof.
  unfold nonempty. destruct s; simpl; split; intros H;
    congruence || discriminate || reflexivity.
Qed.

Lemma nonempty_empty s : s = "" -> nonempty s = false.
Proof. intros ->. reflexivity. Qed.

Lemma render_block_pieces f i host added primary :
  render (block_pieces f i host added primary) =
  renderedText (block_of f i host added primary).
Proof.
  unfold block_pieces, block_of.
  destruct (added =? 0); [|destruct (added <? servers f)];
    cbn [renderedText];
    unfold primary_pieces, joinServer_pieces, joinWorker_pieces,
      tlsSan_pieces, serverExtra_pieces, agentExtra_pieces, bg_pieces,
      Template.install, Template.fetchToken, Template.joinServer,
      Template.joinWorker, Template.serverMarker, Template.workerMarker,
      tlsSanStr, serverExtraArgsSt, agentExtraArgsSt, bgStr;
    destruct (nonempty (tlsSan f)), (nonempty (serverK3sExtraArgs f)),
      (nonempty (agentK3sExtraArgs f)), (background f);
    cbn [render fold_right piece_text app];
    rewrite ?append_assoc, ?append_nil_r; reflexivity.
Qed.

(** ** The TLS-SAN clause *)

Lemma fmt_d_free_of_tlsSanFlag n : ~ Contains (fmt_d n) tlsSanFlag.
Proof.
  intros C. apply (Contains_has_char _ _ "t"%char) in C; [|reflexivity].
  apply fmt_d_chars in C. discriminate.
Qed.

#[local] Hint Resolve fmt_d_free_of_tlsSanFlag : fields.

(** Without the clause of its own, a block has [--tls-san] only if a
    copied field brings it. *)
Lemma block_free_of_tlsSanFlag f i host added primary :
  ~ Contains (user f) tlsSanFlag ->
  ~ Contains (kubeconfig f) tlsSanFlag ->
  ~ Contains (contextName f) tlsSanFlag ->
  ~ Contains (serverK3sExtraArgs f) tlsSanFlag ->
  ~ Contains (agentK3sExtraArgs f) tlsSanFlag ->
  ~ Contains (IP host) tlsSanFlag ->
  ~ Contains (IP primary) tlsSanFlag ->
  role (block_of f i host added primary) = Worker \/ tlsSan f = "" ->
  ~ Contains (renderedText (block_of f i host added primary)) tlsSanFlag.
Proof.
  intros Hu Hk Hc Hs Ha Hh Hp Hcase.
  rewrite <- render_block_pieces.
  rewrite role_block_of in Hcase. unfold block_pieces.
  destruct (added =? 0); [|destruct (added <? servers f)].
  - destruct Hcase as [Hcase|Hcase]; [discriminate|].
    unfold primary_pieces, tlsSan_pieces, serverExtra_pieces.
    rewrite (nonempty_empty _ Hcase).
    destruct (nonempty (serverK3sExtraArgs f));
      (apply separated_free; [discriminate | vm_compute; reflexivity |]);
      intros s Hin; cbn [app In] in Hin; field_cases Hin.
  - destruct Hcase as [Hcase|Hcase]; [discriminate|].
    unfold joinServer_pieces, tlsSan_pieces, serverExtra_pieces, bg_pieces.
    rewrite (nonempty_empty _ Hcase).
    destruct (nonempty (serverK3sExtraArgs f)), (background f);
      (apply separated_free; [discriminate | vm_compute; reflexivity |]);
      intros s Hin; cbn [app In] in Hin; field_cases Hin.
  - unfold joinWorker_pieces, agentExtra_pieces, bg_pieces.
    destruct (nonempty (agentK3sExtraArgs f)), (background f);
      (apply separated_free; [discriminate | vm_compute; reflexivity |]);
      intros s Hin; cbn [app In] in Hin; field_cases Hin.
Qed.

Lemma tlsSanStr_nonempty f : tlsSan f <> "" -> tlsSanStr f = tlsSanClause f.
Proof.
  intros H. apply nonempty_spec in H. unfold tlsSanStr. now rewrite H.
Qed.

Lemma control_plane_block_has_clause f i host added primary :
  role (block_of f i host added primary) <> Worker ->
  tlsSan f <> "" ->
  Contains (renderedText (block_of f i host added primary)) (tlsSanClause f).
Proof.
  intros Hr Ht. apply tlsSanStr_nonempty in Ht. unfold block_of in *.
  destruct (added =? 0); [|destruct (added <? servers f)];
    cbn [role renderedText] in *; [| |congruence].
  - apply Contains_app_r, Contains_app_l.
    unfold Template.install. rewrite Ht.
    exists ("k3sup install --host " ++ IP host ++ cont ++ "--user " ++ user f ++
            cont ++ "--cluster" ++ cont ++ "--local-path " ++ kubeconfig f ++
            cont ++ "--context " ++ contextName f),
           (serverExtraArgsSt f ++ nl).
    rewrite !append_assoc. reflexivity.
  - apply Contains_app_r.
    unfold Template.joinServer. rewrite Ht.
    exists ("k3sup join" ++ cont ++ "--host " ++ IP host ++ cont ++
            "--server-host " ++ IP primary ++ cont ++ "--server" ++ cont ++
            Template.tokenRef ++ cont ++ "--user " ++ user f),
           (serverExtraArgsSt f ++ bgStr f ++ nl).
    rewrite !append_assoc. reflexivity.
Qed.

Lemma tlsSanClause_has_flag f : Contains (tlsSanClause f) tlsSanFlag.
Proof.
  unfold tlsSanClause, tlsSanFlag.
  exists cont, (" " ++ tlsSan f). reflexivity.
Qed.

(** C4, as amended: a primary or additional-server block contains the
    clause [cont ++ "--tls-san " ++ tlsSan] whenever [tlsSan] is not
    empty.  When neither the user, the kubeconfig path, the context
    name, the two extra-args strings nor any host address contains
    [--tls-san], such a block contains the clause iff [tlsSan] is not
    empty, and a worker block, whose template has no such clause,
    contains no [--tls-san] at all. *)
Theorem tls_clause_presence (f : Flags) (hosts : list Host) (b : CommandBlock) :
  In b (plan_blocks f hosts) ->
  (role b <> Worker -> tlsSan f <> "" ->
     Contains (renderedText b) (tlsSanClause f)) /\
  (fields_free_of tlsSanFlag f hosts ->
     (role b <> Worker ->
        (Contains (renderedText b) (tlsSanClause f) <-> tlsSan f <> "")) /\
     (role b = Worker ->
        ~ Contains (renderedText b) tlsSanFlag /\
        ~ Contains (renderedText b) (tlsSanClause f))).
Proof.
  intros Hin.
  destruct (plan_blocks_In_cases f hosts b Hin) as (p & rest & -> & Hb).
  assert (Hshape : exists i host added primary,
            b = block_of f i host added primary /\
            In host (p :: rest) /\
            (forall q, ~ Contains (IP p) q -> ~ Contains (IP primary) q \/
                                               added = 0)).
  { destruct Hb as [->|(i & host & added & Hh & _ & ->)].
    - exists 0, p, 0, zeroHost. repeat split; [now left | now right].
    - exists i, host, added, p. repeat split; [now right | now left]. }
  clear Hb. destruct Hshape as (i & host & added & primary & -> & Hh & Hprim).
  split; [apply control_plane_block_has_clause|].
  intros (Hu & Hk & Hc & Hs & Ha & Hips).
  assert (Hfree : role (block_of f i host added primary) = Worker \/ tlsSan f = "" ->
                  ~ Contains (renderedText (block_of f i host added primary))
                      tlsSanFlag).
  { intros Hcase.
    destruct (Hprim tlsSanFlag (Hips p (or_introl eq_refl))) as [Hp| ->].
    - apply block_free_of_tlsSanFlag; auto.
    - replace (block_of f i host 0 primary) with (block_of f i host 0 host)
        in * by reflexivity.
      apply block_free_of_tlsSanFlag; auto. }
  split.
  - intros Hr. split.
    + intros C E. apply Hfree; [now right|].
      exact (Contains_trans _ _ _ C (tlsSanClause_has_flag f)).
    + now apply control_plane_block_has_clause.
  - intros Hr. split; [apply Hfree; now left|].
    intros C. apply Hfree; [now left|].
    exact (Contains_trans _ _ _ C (tlsSanClause_has_flag f)).
Qed.

(** C4 as stated fails twice over.  With [tlsSan] set, the worker block
    of the second of two hosts has no TLS-SAN clause: the worker template
    has no place for it.  With [tlsSan] empty, the primary's block still
    contains the text of the clause when the server extra-args bring it. *)
Lemma tls_clause_in_every_block_fails :
  ~ tls_clause_in_every_block flags_tls hosts_two /\
  ~ tls_clause_in_every_block flags_tls_in_args hosts_two.
Proof.
  split; intros H.
  - assert (Hin : In (block_of flags_tls 1 (mkHost "node-2" "10.0.0.2") 1
                        (mkHost "node-1" "10.0.0.1"))
                     (plan_blocks flags_tls hosts_two))
      by (apply (nth_error_In _ 1%nat); reflexivity).
    apply H in Hin. destruct Hin as [_ Hin].
    assert (C : Contains
                  (renderedText (block_of flags_tls 1 (mkHost "node-2" "10.0.0.2") 1
                                   (mkHost "node-1" "10.0.0.1")))
                  (tlsSanClause flags_tls)) by (apply Hin; discriminate).
    apply containsb_spec in C. vm_compute in C. discriminate.
  - assert (Hin : In (block_of flags_tls_in_args 0 (mkHost "node-1" "10.0.0.1") 0
                        zeroHost)
                     (plan_blocks flags_tls_in_args hosts_two))
      by (apply (nth_error_In _ 0%nat); reflexivity).
    apply H in Hin. destruct Hin as [Hin _].
    apply Hin; [|reflexivity].
    apply containsb_spec. vm_compute. reflexivity.
Qed.

Lemma tls_clause_presence_witness :
  In (block_of flags_tls 0 (mkHost "node-1" "10.0.0.1") 0 zeroHost)
     (plan_blocks flags_tls hosts_two) /\
  fields_free_of tlsSanFlag flags_tls hosts_two /\
  (Contains
     (renderedText (block_of flags_tls 0 (mkHost "node-1" "10.0.0.1") 0 zeroHost))
     (tlsSanClause flags_tls) <-> tlsSan flags_tls <> "").
Proof.
  assert (Hin : In (block_of flags_tls 0 (mkHost "node-1" "10.0.0.1") 0 zeroHost)
                   (plan_blocks flags_tls hosts_two))
    by (apply (nth_error_In _ 0%nat); reflexivity).
  assert (Hf : fields_free_of tlsSanFlag flags_tls hosts_two).
  { repeat split; try (apply containsb_false; reflexivity).
    intros h [<-|[<-|[]]]; apply containsb_false; reflexivity. }
  split; [exact Hin|]. split; [exact Hf|].
  apply (proj1 (proj2 (tls_clause_presence flags_tls hosts_two _ Hin) Hf)).
  discriminate.
Defined.

(** ** The background suffix *)

Lemma append_last_inj a : forall b c d,
  a ++ String c "" = b ++ String d "" -> a = b /\ c = d.
Proof.
  induction a as [|x a IH]; intros [|y b] c d E; cbn [append] in E.
  - injection E as ->. split; reflexivity.
  - injection E as _ E. destruct b; discriminate.
  - injection E as _ E. destruct a; discriminate.
  - injection E as -> E. destruct (IH _ _ _ E) as [-> ->]. split; reflexivity.
Qed.

Lemma primary_text_closes_paren f host :
  exists body,
    renderedText (block_of f 0 host 0 zeroHost) =
    (body ++ String ")" "") ++ String "010" "".
Proof.
  cbn [block_of Z.eqb renderedText]. unfold Template.fetchToken.
  exists (Template.primaryMarker ++ Template.install f host ++ nl ++ "echo " ++ dq ++
          "Fetching the server's node-token into memory" ++ dq ++ nl ++ nl ++
          "export NODE_TOKEN=$(k3sup node-token --host " ++ IP host ++
          " --user " ++ user f).
  rewrite !append_assoc. reflexivity.
Qed.

Lemma has_char_render c ps :
  has_char c (render ps) = existsb (fun x => has_char c (piece_text x)) ps.
Proof.
  induction ps as [|x ps IH]; [reflexivity|].
  cbn [render fold_right existsb]. rewrite has_char_app. f_equal. exact IH.
Qed.

(** When no string copied into it has [&], the primary's block has none. *)
Lemma primary_block_amp f p :
  has_char "&" (IP p) = false ->
  has_char "&" (user f) = false ->
  has_char "&" (kubeconfig f) = false ->
  has_char "&" (contextName f) = false ->
  has_char "&" (tlsSan f) = false ->
  has_char "&" (serverK3sExtraArgs f) = false ->
  has_char "&" (renderedText (block_of f 0 p 0 zeroHost)) = false.
Proof.
  intros Hh Hu Hk Hc Ht Hs.
  rewrite <- render_block_pieces, has_char_render.
  unfold block_pieces. cbn [Z.eqb].
  unfold primary_pieces, tlsSan_pieces, serverExtra_pieces.
  destruct (nonempty (tlsSan f)), (nonempty (serverK3sExtraArgs f));
    cbn [app existsb piece_text];
    rewrite ?Hu, ?Hk, ?Hc, ?Ht, ?Hs, ?Hh; reflexivity.
Qed.

Lemma join_block_ends_with_suffix f i host added primary :
  background f = true ->
  role (block_of f i host added primary) <> PrimaryControlPlane ->
  EndsLineWith (renderedText (block_of f i host added primary)) bgSuffix.
Proof.
  intros Hb Hr. unfold block_of in *.
  destruct (added =? 0); [|destruct (added <? servers f)];
    cbn [role renderedText] in *; [congruence| |].
  - unfold Template.joinServer, bgStr. rewrite Hb.
    exists (Template.serverMarker (added + 1) ++
            "k3sup join" ++ cont ++ "--host " ++ IP host ++ cont ++
            "--server-host " ++ IP primary ++ cont ++ "--server" ++ cont ++
            Template.tokenRef ++ cont ++ "--user " ++ user f ++ tlsSanStr f ++
            serverExtraArgsSt f).
    unfold bgSuffix. rewrite !append_assoc. reflexivity.
  - unfold Template.joinWorker, bgStr. rewrite Hb.
    exists (Template.workerMarker (i + 1 - added) ++
            "k3sup join" ++ cont ++ "--host " ++ IP host ++ cont ++
            "--server-host " ++ IP primary ++ cont ++
            Template.tokenRef ++ cont ++ "--user " ++ user f ++
            agentExtraArgsSt f).
    unfold bgSuffix. rewrite !append_assoc. reflexivity.
Qed.

Lemma last_char_app a b :
  last_char (a ++ b) =
  match last_char b with Some c => Some c | None => last_char a end.
Proof.
  induction a as [|x a IH]; cbn [append last_char].
  - now destruct (last_char b).
  - rewrite IH. destruct (last_char b); [reflexivity|].
    reflexivity.
Qed.

Lemma EndsLineWith_last_char y :
  EndsLineWith (y ++ nl) bgSuffix -> last_char y = Some "&"%char.
Proof.
  intros [body E].
  change (body ++ bgSuffix ++ nl) with (body ++ " &" ++ String "010" "") in E.
  change (y ++ nl) with (y ++ String "010" "") in E.
  rewrite <- append_assoc in E.
  apply append_last_inj in E as [-> _].
  rewrite last_char_app. reflexivity.
Qed.

Lemma primary_block_not_backgrounded f p :
  ~ EndsLineWith (renderedText (block_of f 0 p 0 zeroHost)) bgSuffix.
Proof.
  destruct (primary_text_closes_paren f p) as [body E].
  rewrite E. intros C. apply EndsLineWith_last_char in C.
  rewrite last_char_app in C. discriminate.
Qed.

(** Without [--background], the last character of a join command is
    the last character of the user, of [tlsSan] or of a clause. *)
Lemma join_block_foreground f i host added primary :
  background f = false ->
  role (block_of f i host added primary) <> PrimaryControlPlane ->
  last_char (user f) <> Some "&"%char ->
  (role (block_of f i host added primary) = Worker \/
   last_char (tlsSan f) <> Some "&"%char) ->
  ~ EndsLineWith (renderedText (block_of f i host added primary)) bgSuffix.
Proof.
  intros Hb Hr Hu Ht C. unfold block_of in *.
  destruct (added =? 0); [|destruct (added <? servers f)];
    cbn [role renderedText] in *; [congruence| |].
  - destruct Ht as [Ht|Ht]; [discriminate|].
    unfold Template.joinServer, bgStr in C. rewrite Hb in C.
    rewrite <- !append_assoc in C.
    apply EndsLineWith_last_char in C. revert C.
    unfold tlsSanStr, serverExtraArgsSt.
    destruct (nonempty (tlsSan f)), (nonempty (serverK3sExtraArgs f));
      rewrite !last_char_app; cbn [last_char];
      destruct (last_char (user f)), (last_char (tlsSan f));
      congruence || discriminate.
  - unfold Template.joinWorker, bgStr in C. rewrite Hb in C.
    rewrite <- !append_assoc in C.
    apply EndsLineWith_last_char in C. revert C.
    unfold agentExtraArgsSt.
    destruct (nonempty (agentK3sExtraArgs f));
      rewrite !last_char_app; cbn [last_char];
      destruct (last_char (user f));
      congruence || discriminate.
Qed.

(** C5, as amended: the primary's block never ends, before its closing
    newline, with the background suffix.  In a run with [background]
    every additional-server and worker block ends with it.  When the
    user does not end with the character [&], nor [tlsSan] in the case of
    an additional-server block, an additional-server or worker block ends
    with the suffix iff [background] is set.  The primary's block does
    not contain the suffix when none of the strings copied into it (its
    host address, the user, the kubeconfig path, the context name,
    [tlsSan], the server extra-args) has the character [&]. *)
Theorem bg_suffix_presence (f : Flags) (hosts : list Host) (b : CommandBlock) :
  In b (plan_blocks f hosts) ->
  (role b = PrimaryControlPlane -> ~ EndsLineWith (renderedText b) bgSuffix) /\
  (role b <> PrimaryControlPlane -> background f = true ->
     EndsLineWith (renderedText b) bgSuffix) /\
  (role b <> PrimaryControlPlane ->
   last_char (user f) <> Some "&"%char ->
   role b = Worker \/ last_char (tlsSan f) <> Some "&"%char ->
     (EndsLineWith (renderedText b) bgSuffix <-> background f = true)) /\
  (role b = PrimaryControlPlane -> primary_fields_without "&" f b ->
     ~ Contains (renderedText b) bgSuffix).
Proof.
  intros Hin.
  destruct (plan_blocks_In_cases f hosts b Hin) as (p & rest & -> & Hb).
  assert (Hshape : exists i host added primary,
            b = block_of f i host added primary /\
            (role b = PrimaryControlPlane -> b = block_of f 0 host 0 zeroHost)).
  { destruct Hb as [->|(i & host & added & _ & Ha & ->)].
    - exists 0, p, 0, zeroHost. split; [reflexivity | reflexivity].
    - exists i, host, added, p. split; [reflexivity|].
      rewrite role_block_of.
      destruct (added =? 0) eqn:E0; [apply Z.eqb_eq in E0; lia|].
      destruct (added <? servers f); discriminate. }
  clear Hb. destruct Hshape as (i & host & added & primary & -> & Hprim).
  split; [|split; [|split]].
  - intros Hr. rewrite (Hprim Hr). apply primary_block_not_backgrounded.
  - intros Hr Hbg. now apply join_block_ends_with_suffix.
  - intros Hr Hu Ht. split.
    + intros C. destruct (background f) eqn:Hbg; [reflexivity|].
      exfalso. exact (join_block_foreground f i host added primary Hbg Hr Hu Ht C).
    + intros Hbg. now apply join_block_ends_with_suffix.
  - intros Hr (Hh & Hu & Hk & Hc & Ht & Hs) C.
    rewrite (Hprim Hr) in C, Hh. cbn [block_of Z.eqb hostAddress] in Hh.
    apply (Contains_has_char _ _ "&"%char) in C; [|reflexivity].
    rewrite primary_block_amp in C by assumption. discriminate.
Qed.

(** C5 as stated fails in each half.  With [background] off and server
    extra-args that contain [" &"], the primary's block contains the
    suffix.  With [background] off and a user that ends with [" &"], the
    worker block ends with the suffix; so does the additional-server
    block when [tlsSan] ends with [" &"]. *)
Lemma bg_suffix_rule_fails :
  ~ bg_suffix_rule flags_amp_in_args hosts_two /\
  ~ bg_primary_rule flags_amp_in_args hosts_two /\
  ~ bg_ends_rule flags_user_amp hosts_two /\
  ~ bg_ends_rule flags_tls_amp hosts_two.
Proof.
  assert (Hin0 : In (block_of flags_amp_in_args 0 (mkHost "node-1" "10.0.0.1") 0
                       zeroHost)
                    (plan_blocks flags_amp_in_args hosts_two))
    by (apply (nth_error_In _ 0%nat); reflexivity).
  assert (C0 : Contains
                 (renderedText (block_of flags_amp_in_args 0
                                  (mkHost "node-1" "10.0.0.1") 0 zeroHost))
                 bgSuffix)
    by (apply containsb_spec; vm_compute; reflexivity).
  split; [|split; [|split]].
  - intros H. apply H in Hin0. destruct Hin0 as [_ Hin0].
    now apply Hin0.
  - intros H. now apply (H _ Hin0).
  - intros H.
    assert (Hin : In (block_of flags_user_amp 1 (mkHost "node-2" "10.0.0.2") 1
                        (mkHost "node-1" "10.0.0.1"))
                     (plan_blocks flags_user_amp hosts_two))
      by (apply (nth_error_In _ 1%nat); reflexivity).
    apply H in Hin. destruct Hin as [Hin _].
    assert (E : background flags_user_amp = true); [|discriminate E].
    apply Hin.
    exists (Template.workerMarker 1 ++ "k3sup join" ++ cont ++ "--host 10.0.0.2" ++
            cont ++ "--server-host 10.0.0.1" ++ cont ++ Template.tokenRef ++ cont ++
            "--user root").
    vm_compute. reflexivity.
  - intros H.
    assert (Hin : In (block_of flags_tls_amp 1 (mkHost "node-2" "10.0.0.2") 1
                        (mkHost "node-1" "10.0.0.1"))
                     (plan_blocks flags_tls_amp hosts_two))
      by (apply (nth_error_In _ 1%nat); reflexivity).
    apply H in Hin. destruct Hin as [Hin _].
    assert (E : background flags_tls_amp = true); [|discriminate E].
    apply Hin.
    exists (Template.serverMarker 2 ++ "k3sup join" ++ cont ++ "--host 10.0.0.2" ++
            cont ++ "--server-host 10.0.0.1" ++ cont ++ "--server" ++ cont ++
            Template.tokenRef ++ cont ++ "--user root" ++ cont ++
            "--tls-san 10.0.0.9").
    vm_compute. reflexivity.
Qed.

Lemma bg_suffix_presence_witness :
  In (block_of flags_background 1 (mkHost "node-2" "10.0.0.2") 1
        (mkHost "node-1" "10.0.0.1"))
     (plan_blocks flags_background hosts_two) /\
  EndsLineWith
    (renderedText (block_of flags_background 1 (mkHost "node-2" "10.0.0.2") 1
                     (mkHost "node-1" "10.0.0.1")))
    bgSuffix /\
  In (block_of flags_one_server 1 (mkHost "node-2" "10.0.0.2") 1
        (mkHost "node-1" "10.0.0.1"))
     (plan_blocks flags_one_server hosts_two) /\
  ~ EndsLineWith
      (renderedText (block_of flags_one_server 1 (mkHost "node-2" "10.0.0.2") 1
                       (mkHost "node-1" "10.0.0.1")))
      bgSuffix /\
  ~ Contains
      (renderedText (block_of flags_one_server 0 (mkHost "node-1" "10.0.0.1") 0
                       zeroHost))
      bgSuffix.
Proof.
  assert (Hin : In (block_of flags_background 1 (mkHost "node-2" "10.0.0.2") 1
                      (mkHost "node-1" "10.0.0.1"))
                   (plan_blocks flags_background hosts_two))
    by (apply (nth_error_In _ 1%nat); reflexivity).
  assert (Hin' : In (block_of flags_one_server 1 (mkHost "node-2" "10.0.0.2") 1
                       (mkHost "node-1" "10.0.0.1"))
                    (plan_blocks flags_one_server hosts_two))
    by (apply (nth_error_In _ 1%nat); reflexivity).
  assert (Hin0 : In (block_of flags_one_server 0 (mkHost "node-1" "10.0.0.1") 0
                       zeroHost)
                    (plan_blocks flags_one_server hosts_two))
    by (apply (nth_error_In _ 0%nat); reflexivity).
  split; [exact Hin|]. split; [|split; [exact Hin'|split]].
  - apply (proj1 (proj2 (bg_suffix_presence flags_background hosts_two _ Hin)));
      [discriminate | reflexivity].
  - intros C.
    assert (E : background flags_one_server = true); [|discriminate E].
    apply (proj1 (proj2 (proj2 (bg_suffix_presence flags_one_server hosts_two _ Hin'))));
      [discriminate | discriminate | left; reflexivity | exact C].
  - apply (proj2 (proj2 (proj2 (bg_suffix_presence flags_one_server hosts_two _ Hin0))));
      [reflexivity | repeat split].
Defined.

(** * Further properties of the planner *)

(** ** What [RunE] prints and returns *)

(** X1: a run that returns an error has printed nothing, and a run that
    returns [nil] has printed a text closed by a newline.  Without
    [--init] the error is the usage error when no path is given, and
    otherwise the very error of [os.ReadFile] or of [json.Unmarshal]. *)
Theorem RunE_error_or_output
    (ReadFile : string -> string + error)
    (Unmarshal : string -> list Host + error)
    (MarshalIndent : list Host -> string + error)
    (initFlag : bool) (f : Flags) (args : list string) :
  (forall e, snd (RunE ReadFile Unmarshal MarshalIndent initFlag f args) = Some e ->
     fst (RunE ReadFile Unmarshal MarshalIndent initFlag f args) = "" /\
     (initFlag = false ->
        (args = [] /\ e = usageError) \/
        (exists name rest, args = name :: rest /\
           (ReadFile name = inr e \/
            exists data, ReadFile name = inl data /\ Unmarshal data = inr e)))) /\
  (snd (RunE ReadFile Unmarshal MarshalIndent initFlag f args) = None ->
     exists body,
       fst (RunE ReadFile Unmarshal MarshalIndent initFlag f args) = body ++ nl).
Proof.
  unfold RunE, outputExampleHostsJSON.
  destruct initFlag.
  - destruct (MarshalIndent exampleHosts) as [data|err]; cbn [fst snd]; split.
    + discriminate.
    + intros _. exists data. reflexivity.
    + intros e _. split; [reflexivity | discriminate].
    + discriminate.
  - destruct args as [|name rest]; cbn [fst snd].
    { split; [|discriminate]. intros e [= <-]. split; [reflexivity|].
      intros _. left. split; reflexivity. }
    destruct (ReadFile name) as [data|err] eqn:Er; cbn [fst snd].
    + destruct (Unmarshal data) as [hosts|err] eqn:Eu; cbn [fst snd]; split.
      * discriminate.
      * intros _. exists (plan_script f hosts). reflexivity.
      * intros e [= <-]. split; [reflexivity|]. intros _. right.
        exists name, rest. split; [reflexivity|]. right.
        exists data. split; assumption.
      * discriminate.
    + split; [|discriminate]. intros e [= <-]. split; [reflexivity|].
      intros _. right. exists name, rest. split; [reflexivity|]. now left.
Qed.

Lemma RunE_error_or_output_witness :
  fst (RunE (fun _ => inr (Errorf "open hosts.json: no such file or directory"))
            (fun _ => inl []) (fun _ => inl "")
            false defaultFlags ["hosts.json"]) = "".
Proof.
  apply (proj1 (RunE_error_or_output
                  (fun _ => inr (Errorf "open hosts.json: no such file or directory"))
                  (fun _ => inl []) (fun _ => inl "")
                  false defaultFlags ["hosts.json"])
               (Errorf "open hosts.json: no such file or directory") eq_refl).
Defined.

(** X2: a run without [--init] that returns [nil] read the file named by
    its first argument, decoded it, and printed the shebang header, the
    text of each block of the plan in order, and a newline. *)
Theorem RunE_success_prints_plan
    (ReadFile : string -> string + error)
    (Unmarshal : string -> list Host + error)
    (MarshalIndent : list Host -> string + error)
    (f : Flags) (args : list string) :
  snd (RunE ReadFile Unmarshal MarshalIndent false f args) = None ->
  exists name rest data hosts,
    args = name :: rest /\
    ReadFile name = inl data /\
    Unmarshal data = inl hosts /\
    fst (RunE ReadFile Unmarshal MarshalIndent false f args) =
      header ++ concat_text (plan_blocks f hosts) ++ nl.
Proof.
  unfold RunE. destruct args as [|name rest]; [discriminate|].
  destruct (ReadFile name) as [data|err] eqn:Er; [|discriminate].
  destruct (Unmarshal data) as [hosts|err] eqn:Eu; [|discriminate].
  intros _. exists name, rest, data, hosts. cbn [fst].
  rewrite plan_script_blocks, append_assoc.
  split; [reflexivity|]. split; [exact Er|]. split; [exact Eu | reflexivity].
Qed.

Lemma RunE_success_prints_plan_witness :
  exists name rest data hosts,
    ["hosts.json"; "ignored"] = name :: rest /\
    (fun _ : string => @inl string error "[...]") name = inl data /\
    (fun _ : string => @inl (list Host) error exampleHosts) data = inl hosts /\
    fst (RunE (fun _ => inl "[...]") (fun _ => inl exampleHosts) (fun _ => inl "")
              false defaultFlags ["hosts.json"; "ignored"]) =
      header ++ concat_text (plan_blocks defaultFlags hosts) ++ nl.
Proof.
  apply (RunE_success_prints_plan
           (fun _ => inl "[...]") (fun _ => inl exampleHosts) (fun _ => inl "")
           defaultFlags ["hosts.json"; "ignored"]).
  reflexivity.
Defined.

(** ** Plans of longer and of shorter inputs *)

Lemma concat_text_app (bs1 bs2 : list CommandBlock) :
  concat_text (bs1 ++ bs2)%list = concat_text bs1 ++ concat_text bs2.
Proof.
  unfold concat_text. induction bs1 as [|b bs1 IH]; [reflexivity|].
  cbn [app fold_right]. now rewrite IH, append_assoc.
Qed.

Lemma blocks_from_firstn f hosts : nodeLimit f <= 0 ->
  forall k i added primary,
    blocks_from f i (firstn k hosts) added primary =
    firstn k (blocks_from f i hosts added primary).
Proof.
  intros HL. induction hosts as [|host rest IH]; intros k i added primary.
  - now rewrite !firstn_nil.
  - destruct k as [|k]; [reflexivity|].
    rewrite firstn_cons, !blocks_from_cons, limit_reached_off by assumption.
    rewrite firstn_cons. f_equal. apply IH.
Qed.

Lemma blocks_from_app f hosts more : forall i added primary,
  exists tail,
    blocks_from f i (hosts ++ more) added primary =
    (blocks_from f i hosts added primary ++ tail)%list.
Proof.
  induction hosts as [|host rest IH]; intros i added primary.
  - exists (blocks_from f i more added primary). reflexivity.
  - cbn [app]. rewrite !blocks_from_cons.
    destruct (limit_reached f i).
    + exists []. reflexivity.
    + destruct (IH (i + 1) (next_added f added)
                  (if added =? 0 then host else primary)) as [tail ->].
      exists tail. reflexivity.
Qed.

(** X3: the limit only cuts the plan short.  The blocks planned under
    any limit are the first ones, as many as hosts are visited, of the
    blocks planned without limit, so the script under a limit opens the
    script without limit. *)
Theorem limit_keeps_a_prefix (f : Flags) (hosts : list Host) :
  plan_blocks f hosts =
    firstn (Z.to_nat (processed f hosts))
           (plan_blocks (set_nodeLimit f 0) hosts) /\
  StartsWith (plan_script (set_nodeLimit f 0) hosts) (plan_script f hosts).
Proof.
  assert (E : plan_blocks f hosts =
              firstn (Z.to_nat (processed f hosts))
                     (plan_blocks (set_nodeLimit f 0) hosts)).
  { rewrite plan_blocks_truncate. unfold plan_blocks.
    apply blocks_from_firstn. simpl. lia. }
  split; [exact E|].
  exists (concat_text (skipn (Z.to_nat (processed f hosts))
                         (plan_blocks (set_nodeLimit f 0) hosts))).
  rewrite !plan_script_blocks, E, append_assoc, <- concat_text_app.
  now rewrite firstn_skipn.
Qed.

(** X4: hosts added at the end of the input leave the blocks of the
    hosts before them as they were: the plan of [hosts] opens the plan of
    [hosts ++ more], block by block and as a script, under any flags. *)
Theorem plan_of_longer_input (f : Flags) (hosts more : list Host) :
  (exists tail,
     plan_blocks f (hosts ++ more) = (plan_blocks f hosts ++ tail)%list) /\
  StartsWith (plan_script f (hosts ++ more)) (plan_script f hosts).
Proof.
  destruct (blocks_from_app f hosts more 0 0 zeroHost) as [tail E].
  fold (plan_blocks f (hosts ++ more)) in E. fold (plan_blocks f hosts) in E.
  split; [exists tail; exact E|].
  exists (concat_text tail).
  now rewrite !plan_script_blocks, E, concat_text_app, append_assoc.
Qed.

(** X5: a limit that is not below the number of hosts is no limit: the
    plan and the script are those of a run without limit. *)
Theorem limit_beyond_input (f : Flags) (hosts : list Host) :
  Z.of_nat (List.length hosts) <= nodeLimit f ->
  plan_blocks f hosts = plan_blocks (set_nodeLimit f 0) hosts /\
  plan_script f hosts = plan_script (set_nodeLimit f 0) hosts.
Proof.
  intros HL.
  assert (Hp : processed f hosts = Z.of_nat (List.length hosts)).
  { unfold processed.
    destruct (nodeLimit f <? Z.of_nat (List.length hosts)) eqn:E;
      [apply Z.ltb_lt in E; lia | now rewrite andb_false_r]. }
  assert (E : plan_blocks f hosts = plan_blocks (set_nodeLimit f 0) hosts).
  { rewrite plan_blocks_truncate, Hp, Nat2Z.id, firstn_all. reflexivity. }
  split; [exact E|]. now rewrite !plan_script_blocks, E.
Qed.

Lemma limit_beyond_input_witness :
  plan_script (mkFlags 3 false "" "" 3 "kubeconfig" "default" "root" "")
    exampleHosts =
  plan_script defaultFlags exampleHosts.
Proof.
  apply (proj2 (limit_beyond_input
                  (mkFlags 3 false "" "" 3 "kubeconfig" "default" "root" "")
                  exampleHosts ltac:(simpl; lia))).
Defined.

(** ** Ordinals of the additional servers *)

Lemma server_marker_from f hosts : forall i added primary k b,
  counter_at f i added ->
  nth_error (blocks_from f i hosts added primary) k = Some b ->
  role b = AdditionalControlPlane ->
  exists rest,
    renderedText b = Template.serverMarker (i + Z.of_nat k + 1) ++ rest.
Proof.
  induction hosts as [|host rest IH]; intros i added primary k b Hc Hk Hr.
  - destruct k; discriminate.
  - rewrite blocks_from_cons in Hk. destruct k as [|k]; cbn [nth_error] in Hk.
    + injection Hk as <-. exists (Template.joinServer f host primary).
      revert Hr. unfold block_of.
      destruct (added =? 0) eqn:E0; [discriminate|]. apply Z.eqb_neq in E0.
      destruct (added <? servers f) eqn:E1; [|discriminate]. intros _.
      apply Z.ltb_lt in E1. cbn [renderedText]. do 2 f_equal.
      destruct Hc as [[_ ->]|[Hi ->]]; lia.
    + destruct (limit_reached f i); [destruct k; discriminate|].
      destruct (IH _ _ _ _ _ (counter_at_next f i added Hc) Hk Hr) as [tl ->].
      exists tl. do 2 f_equal. lia.
Qed.

Lemma serverMarker_line n : Template.serverMarker n = serverLine (fmt_d n).
Proof. reflexivity. Qed.

(** X6: an additional-server block at position [k] of the plan (0-based)
    opens with the line [echo "Setting up additional server: m"], between
    two newlines, where the numeral is the decimal numeral of [k + 1],
    the primary being server 1, with or without a limit. *)
Theorem server_marker_ordinal (f : Flags) (hosts : list Host) (k : nat)
    (b : CommandBlock) :
  nth_error (plan_blocks f hosts) k = Some b ->
  role b = AdditionalControlPlane ->
  exists numeral rest,
    renderedText b =
      nl ++ "echo " ++ dq ++ "Setting up additional server: " ++ numeral ++
      dq ++ nl ++ rest /\
    renderedText b = serverLine numeral ++ rest /\
    decimal_of numeral (Z.of_nat k + 1).
Proof.
  intros Hk Hr.
  destruct (server_marker_from f hosts 0 0 zeroHost k b
              (or_introl (conj eq_refl eq_refl)) Hk Hr) as [rest E].
  exists (fmt_d (Z.of_nat k + 1)), rest.
  rewrite serverMarker_line in E. cbn [Z.add] in E.
  split; [|split; [exact E | apply fmt_d_decimal]].
  rewrite E. unfold serverLine. rewrite !append_assoc. reflexivity.
Qed.

Lemma server_marker_ordinal_witness :
  exists b rest,
    nth_error (plan_blocks defaultFlags exampleHosts) 2 = Some b /\
    role b = AdditionalControlPlane /\
    renderedText b =
      nl ++ "echo " ++ dq ++ "Setting up additional server: 3" ++ dq ++ nl ++ rest.
Proof.
  eexists.
  destruct (server_marker_ordinal defaultFlags exampleHosts 2 _ eq_refl eq_refl)
    as (numeral & rest & E & _ & D).
  exists rest. split; [reflexivity|]. split; [reflexivity|].
  apply NilZero.sis in D. rewrite <- D in E. exact E.
Defined.

(** ** Every block addresses its own host *)

Lemma blocks_from_nth_host f hosts : forall i added primary k b,
  nth_error (blocks_from f i hosts added primary) k = Some b ->
  exists host i' added' primary',
    nth_error hosts k = Some host /\ b = block_of f i' host added' primary'.
Proof.
  induction hosts as [|host rest IH]; intros i added primary k b Hk.
  - destruct k; discriminate.
  - rewrite blocks_from_cons in Hk. destruct k as [|k]; cbn [nth_error] in *.
    + injection Hk as <-. exists host, i, added, primary. split; reflexivity.
    + destruct (limit_reached f i); [destruct k; discriminate|].
      exact (IH _ _ _ _ _ Hk).
Qed.

Lemma block_of_targets f i host added primary :
  hostAddress (block_of f i host added primary) = IP host /\
  Contains (renderedText (block_of f i host added primary)) (hostRef host) /\
  Contains (renderedText (block_of f i host added primary)) (userRef f).
Proof.
  split; [apply hostAddress_block_of|]. unfold block_of, hostRef, userRef.
  destruct (added =? 0); [|destruct (added <? servers f)];
    cbn [renderedText]; split; apply Contains_app_r.
  - apply Contains_app_l. unfold Template.install.
    exists "k3sup install ",
           (cont ++ "--user " ++ user f ++ cont ++ "--cluster" ++ cont ++
            "--local-path " ++ kubeconfig f ++ cont ++ "--context " ++
            contextName f ++ tlsSanStr f ++ serverExtraArgsSt f ++ nl).
    rewrite !append_assoc. reflexivity.
  - apply Contains_app_l. unfold Template.install.
    exists ("k3sup install --host " ++ IP host ++ cont),
           (cont ++ "--cluster" ++ cont ++
            "--local-path " ++ kubeconfig f ++ cont ++ "--context " ++
            contextName f ++ tlsSanStr f ++ serverExtraArgsSt f ++ nl).
    rewrite !append_assoc. reflexivity.
  - unfold Template.joinServer.
    exists ("k3sup join" ++ cont),
           (cont ++ "--server-host " ++ IP primary ++ cont ++ "--server" ++ cont ++
            Template.tokenRef ++ cont ++ "--user " ++ user f ++ tlsSanStr f ++
            serverExtraArgsSt f ++ bgStr f ++ nl).
    rewrite !append_assoc. reflexivity.
  - unfold Template.joinServer.
    exists ("k3sup join" ++ cont ++ "--host " ++ IP host ++ cont ++
            "--server-host " ++ IP primary ++ cont ++ "--server" ++ cont ++
            Template.tokenRef ++ cont),
           (tlsSanStr f ++ serverExtraArgsSt f ++ bgStr f ++ nl).
    rewrite !append_assoc. reflexivity.
  - unfold Template.joinWorker.
    exists ("k3sup join" ++ cont),
           (cont ++ "--server-host " ++ IP primary ++ cont ++
            Template.tokenRef ++ cont ++ "--user " ++ user f ++
            agentExtraArgsSt f ++ bgStr f ++ nl).
    rewrite !append_assoc. reflexivity.
  - unfold Template.joinWorker.
    exists ("k3sup join" ++ cont ++ "--host " ++ IP host ++ cont ++
            "--server-host " ++ IP primary ++ cont ++ Template.tokenRef ++ cont),
           (agentExtraArgsSt f ++ bgStr f ++ nl).
    rewrite !append_assoc. reflexivity.
Qed.

(** X7: the block at position [k] of the plan belongs to the host at
    position [k] of the input: it is recorded for that host's address and
    its text passes [--host] with that address and [--user] with the
    configured user, whatever the role. *)
Theorem block_targets_its_host (f : Flags) (hosts : list Host) (k : nat)
    (b : CommandBlock) :
  nth_error (plan_blocks f hosts) k = Some b ->
  exists host,
    nth_error hosts k = Some host /\
    hostAddress b = IP host /\
    Contains (renderedText b) (hostRef host) /\
    Contains (renderedText b) (userRef f).
Proof.
  intros Hk.
  destruct (blocks_from_nth_host f hosts 0 0 zeroHost k b Hk)
    as (host & i & added & primary & Hh & ->).
  exists host. split; [exact Hh|]. apply block_of_targets.
Qed.

Lemma block_targets_its_host_witness :
  exists b host,
    nth_error (plan_blocks defaultFlags exampleHosts) 1 = Some b /\
    nth_error exampleHosts 1 = Some host /\
    Contains (renderedText b) (hostRef host).
Proof.
  eexists.
  destruct (block_targets_its_host defaultFlags exampleHosts 1 _ eq_refl)
    as (host & Hh & _ & Hc & _).
  exists host. split; [reflexivity|]. split; [exact Hh | exact Hc].
Defined.

(** ** Extra arguments go to the blocks of their kind *)

Lemma serverExtraArgsSt_nonempty f :
  serverK3sExtraArgs f <> "" ->
  serverExtraArgsSt f = extraArgsClause (serverK3sExtraArgs f).
Proof.
  intros H. apply nonempty_spec in H. unfold serverExtraArgsSt. now rewrite H.
Qed.

Lemma agentExtraArgsSt_nonempty f :
  agentK3sExtraArgs f <> "" ->
  agentExtraArgsSt f = extraArgsClause (agentK3sExtraArgs f).
Proof.
  intros H. apply nonempty_spec in H. unfold agentExtraArgsSt. now rewrite H.
Qed.

Lemma block_of_extra_args f i host added primary :
  (role (block_of f i host added primary) <> Worker ->
   serverK3sExtraArgs f <> "" ->
   Contains (renderedText (block_of f i host added primary))
            (extraArgsClause (serverK3sExtraArgs f))) /\
  (role (block_of f i host added primary) = Worker ->
   agentK3sExtraArgs f <> "" ->
   Contains (renderedText (block_of f i host added primary))
            (extraArgsClause (agentK3sExtraArgs f))).
Proof.
  unfold block_of.
  destruct (added =? 0); [|destruct (added <? servers f)];
    cbn [role renderedText]; split; intros Hr Ha;
    try congruence; try discriminate.
  - apply serverExtraArgsSt_nonempty in Ha.
    apply Contains_app_r, Contains_app_l. unfold Template.install. rewrite Ha.
    exists ("k3sup install --host " ++ IP host ++ cont ++ "--user " ++ user f ++
            cont ++ "--cluster" ++ cont ++ "--local-path " ++ kubeconfig f ++
            cont ++ "--context " ++ contextName f ++ tlsSanStr f), nl.
    rewrite !append_assoc. reflexivity.
  - apply serverExtraArgsSt_nonempty in Ha.
    apply Contains_app_r. unfold Template.joinServer. rewrite Ha.
    exists ("k3sup join" ++ cont ++ "--host " ++ IP host ++ cont ++
            "--server-host " ++ IP primary ++ cont ++ "--server" ++ cont ++
            Template.tokenRef ++ cont ++ "--user " ++ user f ++ tlsSanStr f),
           (bgStr f ++ nl).
    rewrite !append_assoc. reflexivity.
  - apply agentExtraArgsSt_nonempty in Ha.
    apply Contains_app_r. unfold Template.joinWorker. rewrite Ha.
    exists ("k3sup join" ++ cont ++ "--host " ++ IP host ++ cont ++
            "--server-host " ++ IP primary ++ cont ++
            Template.tokenRef ++ cont ++ "--user " ++ user f),
           (bgStr f ++ nl).
    rewrite !append_assoc. reflexivity.
Qed.

(** X8: when the server extra arguments are not empty, the primary's
    block and every additional-server block contain the clause
    [--k3s-extra-args] with them, quoted; when the agent extra arguments
    are not empty, every worker block contains the clause with those. *)
Theorem extra_args_by_role (f : Flags) (hosts : list Host) (b : CommandBlock) :
  In b (plan_blocks f hosts) ->
  (role b <> Worker -> serverK3sExtraArgs f <> "" ->
     Contains (renderedText b) (extraArgsClause (serverK3sExtraArgs f))) /\
  (role b = Worker -> agentK3sExtraArgs f <> "" ->
     Contains (renderedText b) (extraArgsClause (agentK3sExtraArgs f))).
Proof.
  intros Hin. apply In_nth_error in Hin as [k Hk].
  destruct (blocks_from_nth_host f hosts 0 0 zeroHost k b Hk)
    as (host & i & added & primary & _ & ->).
  apply block_of_extra_args.
Qed.

Lemma extra_args_by_role_witness :
  exists b,
    In b (plan_blocks flags_servers_args exampleHosts) /\
    role b = Worker /\
    Contains (renderedText b) (extraArgsClause "--node-label role=agent").
Proof.
  eexists.
  assert (Hin : In (block_of flags_servers_args 2
                      (mkHost "node-3" "192.168.128.104") 2
                      (mkHost "node-1" "192.168.128.102"))
                   (plan_blocks flags_servers_args exampleHosts))
    by (apply (nth_error_In _ 2%nat); reflexivity).
  split; [exact Hin|]. split; [reflexivity|].
  apply (proj2 (extra_args_by_role flags_servers_args exampleHosts _ Hin));
    [reflexivity | discriminate].
Defined.

(** ** The primary runs in the foreground *)

(** X9: whatever the flags and whatever the strings copied into it, the
    primary's block does not close with the background suffix: its last
    line is the command that fetches the token, closed by a parenthesis. *)
Theorem primary_never_backgrounded (f : Flags) (hosts : list Host)
    (b : CommandBlock) :
  In b (plan_blocks f hosts) ->
  role b = PrimaryControlPlane ->
  ~ EndsLineWith (renderedText b) bgSuffix /\
  EndsLineWith (renderedText b) ")".
Proof.
  intros Hin Hr.
  destruct (plan_blocks_In_cases f hosts b Hin) as (p & rest & -> & Hb).
  destruct Hb as [->|(i & host & added & _ & Ha & ->)].
  - destruct (primary_text_closes_paren f p) as [body E]. split.
    + intros [body' E']. rewrite E in E'.
      change (body' ++ bgSuffix ++ nl)
        with (body' ++ " " ++ String "&" "" ++ String "010" "") in E'.
      rewrite <- !append_assoc in E'.
      apply append_last_inj in E' as [E' _].
      apply append_last_inj in E' as [_ E']. discriminate.
    + exists body. rewrite E. now rewrite append_assoc.
  - rewrite role_block_of in Hr.
    destruct (added =? 0) eqn:E0; [apply Z.eqb_eq in E0; lia|].
    destruct (added <? servers f); discriminate.
Qed.

Lemma primary_never_backgrounded_witness :
  ~ EndsLineWith
      (renderedText (block_of flags_servers_args 0
                       (mkHost "node-1" "192.168.128.102") 0 zeroHost))
      bgSuffix.
Proof.
  assert (Hin : In (block_of flags_servers_args 0
                      (mkHost "node-1" "192.168.128.102") 0 zeroHost)
                   (plan_blocks flags_servers_args exampleHosts))
    by (apply (nth_error_In _ 0%nat); reflexivity).
  apply (proj1 (primary_never_backgrounded flags_servers_args exampleHosts _
                  Hin eq_refl)).
Defined.

(** ** One primary, servers first *)

Lemma joined_blocks_not_primary f hosts i added primary :
  1 <= added ->
  filter is_primary (blocks_from f i hosts added primary) = [].
Proof.
  intros Ha.
  assert (H : forall b, In b (blocks_from f i hosts added primary) ->
                        is_primary b = false).
  { intros b Hin.
    destruct (joined_blocks f hosts i added primary b Ha Hin)
      as (i' & host & a' & _ & Ha' & ->).
    unfold is_primary. rewrite role_block_of.
    destruct (a' =? 0) eqn:E0; [apply Z.eqb_eq in E0; lia|].
    now destruct (a' <? servers f). }
  induction (blocks_from f i hosts added primary) as [|b bs IH]; [reflexivity|].
  cbn [filter]. rewrite (H b (or_introl eq_refl)).
  apply IH. intros b' Hin. apply H. now right.
Qed.

(** X10: whatever the server count and the limit, the plan of a
    non-empty input has exactly one primary block, and a block is the
    primary's iff it stands at position 0. *)
Theorem exactly_one_primary (f : Flags) (hosts : list Host) :
  hosts <> [] ->
  count_primary (plan_blocks f hosts) = 1 /\
  (forall k b, nth_error (plan_blocks f hosts) k = Some b ->
     (role b = PrimaryControlPlane <-> k = 0%nat)).
Proof.
  intros Hne. split.
  - destruct hosts as [|p rest]; [congruence|].
    unfold count_primary, plan_blocks. rewrite blocks_from_cons.
    cbn [filter is_primary block_of Z.eqb role Role_eqb].
    destruct (limit_reached f 0); [reflexivity|].
    rewrite joined_blocks_not_primary by (unfold next_added; simpl; lia).
    reflexivity.
  - intros k b Hk. apply role_plan_nth in Hk. rewrite Hk.
    destruct (role_at_spec (servers f) (Z.of_nat k)) as (H1 & _); [lia|].
    rewrite H1. lia.
Qed.

Lemma exactly_one_primary_witness :
  count_primary
    (plan_blocks (mkFlags 0 false "" "" (-4) "kubeconfig" "default" "root" "")
       exampleHosts) = 1.
Proof.
  apply (proj1 (exactly_one_primary
                  (mkFlags 0 false "" "" (-4) "kubeconfig" "default" "root" "")
                  exampleHosts ltac:(discriminate))).
Defined.

(** X11: servers come before workers: once a block of the plan is a
    worker's, every later block is a worker's too. *)
Theorem servers_before_workers (f : Flags) (hosts : list Host) (k k' : nat)
    (b b' : CommandBlock) :
  nth_error (plan_blocks f hosts) k = Some b ->
  nth_error (plan_blocks f hosts) k' = Some b' ->
  (k <= k')%nat ->
  role b = Worker -> role b' = Worker.
Proof.
  intros Hk Hk' Hle. apply role_plan_nth in Hk, Hk'. rewrite Hk, Hk'.
  destruct (role_at_spec (servers f) (Z.of_nat k)) as (_ & _ & H); [lia|].
  destruct (role_at_spec (servers f) (Z.of_nat k')) as (_ & _ & H'); [lia|].
  rewrite H, H'. lia.
Qed.

Lemma servers_before_workers_witness :
  exists b b',
    nth_error (plan_blocks flags_one_server exampleHosts) 1 = Some b /\
    nth_error (plan_blocks flags_one_server exampleHosts) 2 = Some b' /\
    role b' = Worker.
Proof.
  do 2 eexists. split; [reflexivity|]. split; [reflexivity|].
  apply (servers_before_workers flags_one_server exampleHosts 1 2 _ _
           eq_refl eq_refl ltac:(lia) eq_refl).
Defined.

(** ** The counter of the loop *)

Lemma loop_body_next f i host st :
  serversAdded (loop_body f i host st) = next_added f (serversAdded st) /\
  primaryServer (loop_body f i host st) =
    (if serversAdded st =? 0 then host else primaryServer st).
Proof.
  unfold loop_body, next_added.
  destruct (serversAdded st =? 0); [|destruct (serversAdded st <? servers f)];
    split; reflexivity.
Qed.

Lemma next_added_counts f i host added primary :
  next_added f added =
  added + (if is_control_plane (block_of f i host added primary) then 1 else 0).
Proof.
  rewrite is_control_plane_block_of. unfold next_added.
  destruct (added =? 0) eqn:E0; [apply Z.eqb_eq in E0; subst; reflexivity|].
  destruct (added <? servers f); cbn [orb]; lia.
Qed.

Lemma range_loop_counter f hosts : forall i st,
  serversAdded (range_loop f i hosts st) =
  serversAdded st +
  count_control_plane (blocks_from f i hosts (serversAdded st) (primaryServer st)).
Proof.
  induction hosts as [|host rest IH]; intros i st.
  - cbn [range_loop blocks_from]. change (count_control_plane []) with 0. lia.
  - cbn [range_loop]. rewrite blocks_from_cons, count_control_plane_cons.
    destruct (loop_body_next f i host st) as [Hn Hp].
    destruct (limit_reached f i).
    + rewrite Hn, (next_added_counts f i host _ (primaryServer st)).
      change (count_control_plane []) with 0. lia.
    + rewrite IH, Hn, Hp.
      rewrite (next_added_counts f i host _ (primaryServer st)). lia.
Qed.

Lemma range_loop_primary f hosts : forall i st,
  1 <= serversAdded st ->
  primaryServer (range_loop f i hosts st) = primaryServer st.
Proof.
  induction hosts as [|host rest IH]; intros i st Ha; [reflexivity|].
  cbn [range_loop]. destruct (loop_body_next f i host st) as [Hn Hp].
  assert (E : (serversAdded st =? 0) = false) by (apply Z.eqb_neq; lia).
  rewrite E in Hp.
  destruct (limit_reached f i); [exact Hp|].
  rewrite IH; [exact Hp|]. rewrite Hn. now apply next_added_joined.
Qed.

Lemma range_loop_bound f hosts : forall i st,
  0 <= serversAdded st <= Z.max 1 (servers f) ->
  0 <= serversAdded (range_loop f i hosts st) <= Z.max 1 (servers f).
Proof.
  induction hosts as [|host rest IH]; intros i st Ha; [exact Ha|].
  cbn [range_loop]. destruct (loop_body_next f i host st) as [Hn _].
  assert (Hb : 0 <= serversAdded (loop_body f i host st) <= Z.max 1 (servers f)).
  { rewrite Hn. unfold next_added.
    destruct (serversAdded st =? 0); [lia|].
    destruct (serversAdded st <? servers f) eqn:E;
      [apply Z.ltb_lt in E|]; lia. }
  destruct (limit_reached f i); [exact Hb | now apply IH].
Qed.

(** X12: when the loop ends, [serversAdded] is the number of
    control-plane blocks it has written, never more than the larger of 1
    and [servers], and [primaryServer] is the first host of the input. *)
Theorem loop_counter_counts_servers (f : Flags) (hosts : list Host) (p : Host) :
  hd_error hosts = Some p ->
  serversAdded (range_loop f 0 hosts initState) =
    count_control_plane (plan_blocks f hosts) /\
  1 <= serversAdded (range_loop f 0 hosts initState) <= Z.max 1 (servers f) /\
  primaryServer (range_loop f 0 hosts initState) = p.
Proof.
  intros Hp. destruct hosts as [|p' rest]; [discriminate|]. injection Hp as ->.
  assert (Hc : serversAdded (range_loop f 0 (p :: rest) initState) =
               count_control_plane (plan_blocks f (p :: rest))).
  { rewrite range_loop_counter. cbn [initState serversAdded primaryServer].
    unfold plan_blocks. lia. }
  split; [exact Hc|]. split.
  - split; [|apply range_loop_bound; cbn; lia].
    rewrite Hc. unfold plan_blocks.
    rewrite blocks_from_cons, count_control_plane_cons.
    cbn [is_control_plane block_of Z.eqb role Role_eqb negb].
    unfold count_control_plane. lia.
  - cbn [range_loop]. destruct (loop_body_next f 0 p initState) as [Hn Hq].
    cbn [initState serversAdded primaryServer Z.eqb] in Hn, Hq.
    destruct (limit_reached f 0); [exact Hq|].
    rewrite range_loop_primary; [exact Hq|].
    rewrite Hn. unfold next_added. simpl. lia.
Qed.

Lemma loop_counter_counts_servers_witness :
  serversAdded (range_loop defaultFlags 0 exampleHosts initState) =
  count_control_plane (plan_blocks defaultFlags exampleHosts).
Proof.
  apply (proj1 (loop_counter_counts_servers defaultFlags exampleHosts
                  (mkHost "node-1" "192.168.128.102") eq_refl)).
Defined.

(** ** The default flags *)

(** X13: with the flags left at their defaults every host of the input
    gets a block, the first is the primary, the second and third are
    additional servers and all others are workers. *)
Theorem default_plan_roles (hosts : list Host) :
  List.length (plan_blocks defaultFlags hosts) = List.length hosts /\
  (forall k b, nth_error (plan_blocks defaultFlags hosts) k = Some b ->
     role b = match k with
              | 0%nat => PrimaryControlPlane
              | 1%nat | 2%nat => AdditionalControlPlane
              | _ => Worker
              end).
Proof.
  split.
  - unfold plan_blocks. apply length_blocks_unlimited. simpl. lia.
  - intros k b Hk. apply role_plan_nth in Hk. rewrite Hk.
    destruct k as [|[|[|k]]]; try reflexivity.
    unfold role_at. cbn [servers defaultFlags].
    destruct (Z.of_nat (S (S (S k))) =? 0) eqn:E0; [apply Z.eqb_eq in E0; lia|].
    destruct (Z.of_nat (S (S (S k))) <? 3) eqn:E1; [apply Z.ltb_lt in E1; lia|].
    reflexivity.
Qed.

Lemma default_plan_roles_witness :
  exists b,
    nth_error (plan_blocks defaultFlags exampleHosts) 2 = Some b /\
    role b = AdditionalControlPlane.
Proof.
  eexists. split; [reflexivity|].
  apply (proj2 (default_plan_roles exampleHosts) 2%nat _ eq_refl).
Defined.

(** ** What only the primary's block does *)

Lemma fmt_d_free_of p c n :
  has_char c p = true -> has_char c "-0123456789" = false ->
  ~ Contains (fmt_d n) p.
Proof.
  intros Hp Hd C. apply (Contains_has_char _ _ c) in C; [|exact Hp].
  apply fmt_d_chars in C. congruence.
Qed.

Lemma join_block_free_of_cluster f i host added primary :
  1 <= added ->
  ~ Contains (user f) "--cluster" ->
  ~ Contains (tlsSan f) "--cluster" ->
  ~ Contains (serverK3sExtraArgs f) "--cluster" ->
  ~ Contains (agentK3sExtraArgs f) "--cluster" ->
  ~ Contains (IP host) "--cluster" ->
  ~ Contains (IP primary) "--cluster" ->
  ~ Contains (renderedText (block_of f i host added primary)) "--cluster".
Proof.
  intros Ha Hu Ht Hs Hg Hh Hp.
  pose proof (fun n => fmt_d_free_of "--cluster" "c" n eq_refl eq_refl) as Hd.
  rewrite <- render_block_pieces. unfold block_pieces.
  destruct (added =? 0) eqn:E0; [apply Z.eqb_eq in E0; lia|].
  destruct (added <? servers f); join_pieces_free separated_free.
Qed.

Lemma join_block_free_of_assignment f i host added primary :
  1 <= added ->
  ~ Contains (user f) "NODE_TOKEN=" ->
  ~ Contains (tlsSan f) "NODE_TOKEN=" ->
  ~ Contains (serverK3sExtraArgs f) "NODE_TOKEN=" ->
  ~ Contains (agentK3sExtraArgs f) "NODE_TOKEN=" ->
  ~ Contains (IP host) "NODE_TOKEN=" ->
  ~ Contains (IP primary) "NODE_TOKEN=" ->
  ~ Contains (renderedText (block_of f i host added primary)) "NODE_TOKEN=".
Proof.
  intros Ha Hu Ht Hs Hg Hh Hp.
  pose proof (fun n => fmt_d_free_of "NODE_TOKEN=" "N" n eq_refl eq_refl) as Hd.
  rewrite <- render_block_pieces. unfold block_pieces.
  destruct (added =? 0) eqn:E0; [apply Z.eqb_eq in E0; lia|].
  destruct (added <? servers f); join_pieces_free separated_free.
Qed.

Lemma primary_block_initialises f p :
  Contains (renderedText (block_of f 0 p 0 zeroHost)) "--cluster" /\
  Contains (renderedText (block_of f 0 p 0 zeroHost)) "NODE_TOKEN=".
Proof.
  cbn [block_of Z.eqb renderedText]. split; apply Contains_app_r.
  - apply Contains_app_l. unfold Template.install.
    exists ("k3sup install --host " ++ IP p ++ cont ++ "--user " ++ user f ++ cont),
           (cont ++ "--local-path " ++ kubeconfig f ++ cont ++ "--context " ++
            contextName f ++ tlsSanStr f ++ serverExtraArgsSt f ++ nl).
    rewrite !append_assoc. reflexivity.
  - apply Contains_app_r. unfold Template.fetchToken.
    exists (nl ++ "echo " ++ dq ++ "Fetching the server's node-token into memory" ++
            dq ++ nl ++ nl ++ "export "),
           ("$(k3sup node-token --host " ++ IP p ++ " --user " ++ user f ++ ")" ++ nl).
    rewrite !append_assoc. reflexivity.
Qed.

(** X14: the primary's block, and it alone, initialises the cluster and
    assigns the join token.  The primary's block contains [--cluster] and
    [NODE_TOKEN=]; when neither the user, [tlsSan], the two extra-args
    strings nor any host address contains the text in question, no
    additional-server or worker block contains [--cluster], and none
    contains [NODE_TOKEN=].  The kubeconfig path and the context name
    play no part: no join block copies them. *)
Theorem only_primary_initialises (f : Flags) (hosts : list Host)
    (b : CommandBlock) (q : string) :
  In b (plan_blocks f hosts) ->
  q = "--cluster" \/ q = "NODE_TOKEN=" ->
  (role b = PrimaryControlPlane -> Contains (renderedText b) q) /\
  (join_fields_free_of q f hosts ->
   role b <> PrimaryControlPlane -> ~ Contains (renderedText b) q).
Proof.
  intros Hin Hq.
  destruct (plan_blocks_In_cases f hosts b Hin) as (p & rest & -> & Hb).
  destruct Hb as [->|(i & host & added & Hh & Ha & ->)].
  - split.
    + intros _. destruct (primary_block_initialises f p) as [H1 H2].
      destruct Hq as [->| ->]; assumption.
    + intros _ Hr. exfalso. apply Hr. reflexivity.
  - split.
    + rewrite role_block_of.
      destruct (added =? 0) eqn:E0; [apply Z.eqb_eq in E0; lia|].
      destruct (added <? servers f); discriminate.
    + intros (Hu & Ht & Hs & Hg & Hips) _.
      assert (Hhost : ~ Contains (IP host) q) by (apply Hips; now right).
      assert (Hprim : ~ Contains (IP p) q) by (apply Hips; now left).
      destruct Hq as [->| ->].
      * now apply join_block_free_of_cluster.
      * now apply join_block_free_of_assignment.
Qed.

Lemma only_primary_initialises_witness :
  contextName flags_cluster_context = "k3s--cluster" /\
  ~ Contains
      (renderedText (block_of flags_cluster_context 1
                       (mkHost "node-2" "192.168.128.103") 1
                       (mkHost "node-1" "192.168.128.102")))
      "--cluster".
Proof.
  split; [reflexivity|].
  assert (Hin : In (block_of flags_cluster_context 1
                      (mkHost "node-2" "192.168.128.103") 1
                      (mkHost "node-1" "192.168.128.102"))
                   (plan_blocks flags_cluster_context exampleHosts))
    by (apply (nth_error_In _ 1%nat); reflexivity).
  assert (Hf : join_fields_free_of "--cluster" flags_cluster_context exampleHosts).
  { repeat split; try (apply containsb_false; reflexivity).
    intros h [<-|[<-|[<-|[]]]]; apply containsb_false; reflexivity. }
  apply (proj2 (only_primary_initialises flags_cluster_context exampleHosts _
                  "--cluster" Hin (or_introl eq_refl)) Hf).
  discriminate.
Defined.
